(** * Marina: boats, loads and the relationship between them

    A shallow embedding of the models ([models/boat.js], [models/load.js])
    and controllers ([controllers/boat.js], [controllers/load.js]) of the
    Marina REST backend, and the properties of its relationship and
    pagination logic.

    Conventions of the embedding.
    - JavaScript values that travel through request bodies and through
      the store are JSON primitives ([jsval]); numbers are integers and
      strings are ASCII text.
    - The document store is a pair of finite maps, one per kind, indexed
      by the number that [parseInt(id, 10)] yields.
    - Store calls never fail, and the store serves them in the order in
      which the source issues them.  The callback of a chain that the
      source does not await (a detached [datastore.get(..).then(..)])
      issues its calls after the calls the function issues before it
      gives up control; where no such call touches what the callback
      writes, the chain is run to completion where it starts.
    - An exception thrown by a controller is the result [Thrown]. *)

From Stdlib Require Import ZArith String Ascii List Bool Lia.
From Stdlib Require Import DecimalString.
From stdpp Require Import base option countable gmap strings list.

Local Open Scope string_scope.
Local Open Scope Z_scope.

(** ** JavaScript values and coercions *)

Module JS.

(** A JavaScript number that is an integer, or NaN. *)
Inductive number := NaN | Int (z : Z).

(** JSON primitives, and [undefined] for a property that is absent.
    Arrays and objects, which a JSON body can also hold as the value of
    a field, are not modelled. *)
Inductive jsval :=
| JUndefined
| JNull
| JBool (b : bool)
| JNum (n : Z)
| JStr (s : string).

(** A query-string value as [url.parse(req.url, true).query] gives it:
    absent, one string, or an array of strings for a repeated key. *)
Inductive qval :=
| QAbsent
| QStr (s : string)
| QArr (l : list string).

Inductive jserror := TypeError | ReferenceError.

(** The result of running a function that may throw. *)
Inductive outcome (A : Type) :=
| Returned (a : A)
| Thrown (e : jserror).
Arguments Returned {A} a.
Arguments Thrown {A} e.

#[global] Instance outcome_ret : MRet outcome := @Returned.

#[global] Instance outcome_bind : MBind outcome := fun A B k m =>
  match m with
  | Returned a => k a
  | Thrown e => Thrown e
  end.

#[global] Instance number_eq_dec : EqDecision number.
Proof. solve_decision. Defined.

#[global] Instance jsval_eq_dec : EqDecision jsval.
Proof. solve_decision. Defined.

Definition number_to_option (n : number) : option Z :=
  match n with NaN => None | Int z => Some z end.

Definition number_of_option (o : option Z) : number :=
  match o with None => NaN | Some z => Int z end.

#[global] Instance number_countable : Countable number.
Proof.
  apply (inj_countable' number_to_option number_of_option).
  intros []; reflexivity.
Defined.

(** What the language runtime provides: [parseInt(s, 10)], the
    conversion of a string to a number, and the text of a number. *)
Class Runtime := {
  parseInt : string -> number;
  StringToNumber : string -> number;
  NumberToString : Z -> string
}.

(** [!!x] *)
Definition truthy (v : jsval) : bool :=
  match v with
  | JUndefined | JNull => false
  | JBool b => b
  | JNum n => negb (Z.eqb n 0)
  | JStr s => negb (String.eqb s "")
  end.

(** [x === y] *)
Definition strict_eq (x y : jsval) : bool := bool_decide (x = y).

Section Coercions.
Context `{Runtime}.

Definition ToNumber (v : jsval) : number :=
  match v with
  | JUndefined => NaN
  | JNull => Int 0
  | JBool b => Int (if b then 1 else 0)
  | JNum n => Int n
  | JStr s => StringToNumber s
  end.

Definition ToString (v : jsval) : string :=
  match v with
  | JUndefined => "undefined"
  | JNull => "null"
  | JBool b => if b then "true" else "false"
  | JNum n => NumberToString n
  | JStr s => s
  end.

(** [x > n] for a number literal [n]: false when [x] is NaN. *)
Definition gt (v : jsval) (n : Z) : bool :=
  match ToNumber v with
  | NaN => false
  | Int z => n <? z
  end.
End Coercions.

(** [x.length]: a TypeError on [undefined] and [null], the length of a
    string, [undefined] on a boolean or a number. *)
Definition get_length (v : jsval) : outcome jsval :=
  match v with
  | JUndefined | JNull => Thrown TypeError
  | JStr s => Returned (JNum (Z.of_nat (String.length s)))
  | JBool _ | JNum _ => Returned JUndefined
  end.

(** A character of the class [[a-zA-Z0-9 ]]. *)
Definition in_class (c : ascii) : bool :=
  let n := Z.of_nat (nat_of_ascii c) in
  ((48 <=? n) && (n <=? 57)) || ((65 <=? n) && (n <=? 90))
  || ((97 <=? n) && (n <=? 122)) || Z.eqb n 32.

(** [new RegExp("^[a-zA-Z0-9 ]*$").test(s)] on a string. *)
Fixpoint pattern_matches (s : string) : bool :=
  match s with
  | EmptyString => true
  | String c rest => in_class c && pattern_matches rest
  end.

(** [pattern.test(x)]: the argument is converted to a string first. *)
Definition pattern_test `{Runtime} (v : jsval) : bool :=
  pattern_matches (ToString v).

(** [arr.join(",")] *)
Fixpoint join_comma (l : list string) : string :=
  match l with
  | [] => ""
  | [s] => s
  | s :: rest => s +:+ "," +:+ join_comma rest
  end.

(** The primitive of a query value: an array converts to its join. *)
Definition qprim (q : qval) : option string :=
  match q with
  | QAbsent => None
  | QStr s => Some s
  | QArr l => Some (join_comma l)
  end.

Definition qtext (q : qval) : string :=
  match qprim q with
  | None => "undefined"
  | Some s => s
  end.

(** The result of [a + b] on two query values: concatenation as soon as
    one side is a string, and NaN for [undefined + undefined]. *)
Inductive sum := SumNaN | SumText (s : string).

Definition plus (a b : qval) : sum :=
  match qprim a, qprim b with
  | None, None => SumNaN
  | _, _ => SumText (qtext a +:+ qtext b)
  end.

(** The text a template literal substitutes for the sum. *)
Definition sum_text (s : sum) : string :=
  match s with
  | SumNaN => "NaN"
  | SumText t => t
  end.

(** [s.split("/")]. *)
Fixpoint split_slash_go (s : string) (cur : string) : list string :=
  match s with
  | EmptyString => [cur]
  | String c rest =>
      if Ascii.eqb c "/" then cur :: split_slash_go rest ""
      else split_slash_go rest (cur +:+ String c "")
  end.

Definition split_slash (s : string) : list string := split_slash_go s "".

(** The text of an optional string in a template literal. *)
Definition opt_text (o : option string) : string :=
  match o with
  | None => "undefined"
  | Some s => s
  end.

End JS.

Export JS.

(** ** The document store *)

Module Store.

(** An entry of a boat's [loads] array. *)
Record load_ref := { ref_id : string; ref_self : string }.

(** A stored Boat entity. *)
Record boat := {
  b_name : jsval;
  b_type : jsval;
  b_length : jsval;
  b_public : jsval;
  b_owner : jsval;
  b_loads : list load_ref
}.

(** A stored Load entity. *)
Record load := {
  l_weight : jsval;
  l_content : jsval;
  l_delivery_date : jsval;
  l_current_boat : jsval
}.

(** The two kinds, and the counter from which the store names new
    entities. *)
Record datastore := {
  ds_boats : gmap number boat;
  ds_loads : gmap number load;
  ds_next : Z
}.

(** A key: complete ([datastore.key([KIND, n])]) or filled in by the
    store when an entity is saved under an incomplete key. *)
Inductive key := Complete (id : number) | Allocated (id : string).

(** What [datastore.get(key)] resolves to, paired with the id that was
    asked for: [{ data: data[0], id: id }]. *)
Record fetched (A : Type) := { data : option A; id : string }.
Arguments data {A} f.
Arguments id {A} f.

(** The decimal text of a store-assigned id. *)
Definition id_text (n : Z) : string := NilZero.string_of_int (Z.to_int n).

Definition save_boat (k : number) (b : boat) (ds : datastore) : datastore :=
  {| ds_boats := <[k := b]> (ds_boats ds);
     ds_loads := ds_loads ds;
     ds_next := ds_next ds |}.

Definition save_load (k : number) (l : load) (ds : datastore) : datastore :=
  {| ds_boats := ds_boats ds;
     ds_loads := <[k := l]> (ds_loads ds);
     ds_next := ds_next ds |}.

Definition save_new_boat (b : boat) (ds : datastore) : key * datastore :=
  (Allocated (id_text (ds_next ds)),
   {| ds_boats := <[Int (ds_next ds) := b]> (ds_boats ds);
      ds_loads := ds_loads ds;
      ds_next := ds_next ds + 1 |}).

Definition save_new_load (l : load) (ds : datastore) : key * datastore :=
  (Allocated (id_text (ds_next ds)),
   {| ds_boats := ds_boats ds;
      ds_loads := <[Int (ds_next ds) := l]> (ds_loads ds);
      ds_next := ds_next ds + 1 |}).

Definition delete_boat_key (k : number) (ds : datastore) : datastore :=
  {| ds_boats := delete k (ds_boats ds);
     ds_loads := ds_loads ds;
     ds_next := ds_next ds |}.

Definition delete_load_key (k : number) (ds : datastore) : datastore :=
  {| ds_boats := ds_boats ds;
     ds_loads := delete k (ds_loads ds);
     ds_next := ds_next ds |}.

(** The store's query engine: the page of entities, each with the id
    [fromDatastore] copies from its key, that a query with the given
    filter, limit and offset returns. *)
Inductive boat_filter := PublicBoats | OwnedBy (userid : jsval).

Class QueryEngine := {
  run_boat_query : datastore -> boat_filter -> qval -> qval -> list (string * boat);
  run_load_query : datastore -> qval -> qval -> list (string * load)
}.

End Store.

Export Store.

(** ** Requests and responses *)

Module Http.

(** The parts of an Express request the controllers read.  [query_limit]
    and [query_offset] are the two entries of
    [url.parse(req.url, true).query] that are read. *)
Record request := {
  method : string;
  protocol : string;
  host : option string;
  url : string;
  content_type : option string;
  accepts_json : bool;
  boat_id : string;
  load_id : string;
  query_limit : qval;
  query_offset : qval;
  body : gmap string jsval
}.

(** [res.locals], as the token middleware leaves it. *)
Record locals := { isValid : bool; userid : jsval }.

(** [req.body.k] *)
Definition prop (req : request) (k : string) : jsval :=
  default JUndefined (body req !! k).

(** [!!req.get(h)] for a header value. *)
Definition header_truthy (h : option string) : bool :=
  match h with
  | None => false
  | Some s => negb (String.eqb s "")
  end.

(** [req.get("Content-Type") !== "application/json"] *)
Definition not_json (h : option string) : bool :=
  negb (bool_decide (h = Some "application/json")).

(** [req.url.split("/")[1]] inside a template literal. *)
Definition collection (req : request) : string :=
  opt_text (split_slash (url req) !! 1%nat).

(** [`${req.protocol}://${req.get("host")}/${req.url.split("/")[1]}/${id}`] *)
Definition self_link (req : request) (id : string) : string :=
  protocol req +:+ "://" +:+ opt_text (host req) +:+ "/"
  +:+ collection req +:+ "/" +:+ id.

(** The [next] link of a collection page. *)
Definition next_link (req : request) : string :=
  protocol req +:+ "://" +:+ opt_text (host req) +:+ "/"
  +:+ collection req +:+ "/?limit=5&offset="
  +:+ sum_text (plus (query_limit req) (query_offset req)).

Record boat_json := {
  bj_id : string;
  bj_name : jsval;
  bj_type : jsval;
  bj_length : jsval;
  bj_loads : option (list load_ref);
  bj_owner : jsval;
  bj_self : string
}.

Record load_json := {
  lj_id : string;
  lj_weight : jsval;
  lj_content : jsval;
  lj_delivery_date : jsval;
  lj_current_load : jsval;
  lj_self : string
}.

(** The envelope of a collection listing. *)
Record page (A : Type) := {
  items : list A;
  offset : qval;
  limit : qval;
  count : Z;
  next : string
}.
Arguments items {A} p.
Arguments offset {A} p.
Arguments limit {A} p.
Arguments count {A} p.
Arguments next {A} p.

Inductive payload :=
| PError (msg : string)
| PBoat (b : boat_json)
| PLoad (l : load_json)
| PBoats (p : page boat_json)
| PLoads (p : page load_json)
| PSelf (self : string)
| PNone.

Record response := {
  status : Z;
  location : option string;
  sent : payload
}.

(** [res.status(code).json({ Error: msg })] *)
Definition error (code : Z) (msg : string) : response :=
  {| status := code; location := None; sent := PError msg |}.

(** [res.status(code).json(p)] *)
Definition json (code : Z) (p : payload) : response :=
  {| status := code; location := None; sent := p |}.

(** [res.status(code).end()] *)
Definition finish (code : Z) : response :=
  {| status := code; location := None; sent := PNone |}.

(** [res.status(303).set("Location", self).send({ self: self })] *)
Definition see_other (self : string) : response :=
  {| status := 303; location := Some self; sent := PSelf self |}.

(** The [count] of the envelope a response carries, if it carries one. *)
Definition page_count (r : response) : option Z :=
  match sent r with
  | PBoats p => Some (count p)
  | PLoads p => Some (count p)
  | _ => None
  end.

(** The [next] link of the envelope a response carries. *)
Definition page_next (r : response) : option string :=
  match sent r with
  | PBoats p => Some (next p)
  | PLoads p => Some (next p)
  | _ => None
  end.

(** A key is an object, and an object is truthy. *)
Definition key_truthy (k : key) : bool := true.

(** [key.id], as text. *)
Definition key_id `{Runtime} (k : key) : string :=
  match k with
  | Allocated s => s
  | Complete NaN => "NaN"
  | Complete (Int z) => NumberToString z
  end.

End Http.

Export Http.

(** ** models/load.js *)

Module LoadModel.
Section WithRuntime.
Context `{Runtime}.

Definition post_load (weight content delivery_date : jsval)
    (ds : datastore) : key * datastore :=
  let new_load := {| l_weight := weight; l_content := content;
                     l_delivery_date := delivery_date;
                     l_current_boat := JNull |} in
  save_new_load new_load ds.

Definition get_load (ds : datastore) (id : string) : fetched load :=
  let key := parseInt id in
  {| data := ds_loads ds !! key; id := id |}.

(** The first statement reads [load], the constant that the second
    statement declares: a ReferenceError, before any store call. *)
Definition put_load (id : string) (weight content delivery_date boat_id : jsval)
    (ds : datastore) : outcome (key * datastore) :=
  Thrown ReferenceError.

Definition delete_load (id : string) (ds : datastore) : datastore :=
  let key := parseInt id in
  delete_load_key key ds.

(** The promise chain is not returned: the function yields
    [undefined] and the chain runs detached.  On a missing load the
    callback throws inside the chain and nothing is saved. *)
Definition add_load_to_boat (boatID loadID : string) (ds : datastore) : datastore :=
  let loadKey := parseInt loadID in
  match ds_loads ds !! loadKey with
  | None => ds
  | Some d =>
      if negb (truthy (l_current_boat d)) then
        let newLoad := {| l_weight := l_weight d;
                          l_content := l_content d;
                          l_delivery_date := l_delivery_date d;
                          l_current_boat := JStr boatID |} in
        save_load loadKey newLoad ds
      else ds
  end.

Definition remove_load_from_boat (loadID : string) (ds : datastore) : datastore :=
  let loadKey := parseInt loadID in
  match ds_loads ds !! loadKey with
  | Some d =>
      let newLoad := {| l_weight := l_weight d;
                        l_content := l_content d;
                        l_delivery_date := l_delivery_date d;
                        l_current_boat := JNull |} in
      save_load loadKey newLoad ds
  | None => ds
  end.
End WithRuntime.
End LoadModel.

(** ** models/boat.js *)

Module BoatModel.
Section WithRuntime.
Context `{Runtime}.

(** No stored boat is read: the new entity is saved whatever its name. *)
Definition post_boat (name type length public owner : jsval)
    (ds : datastore) : key * datastore :=
  let new_boat := {| b_name := name; b_type := type; b_length := length;
                     b_public := public; b_owner := owner; b_loads := [] |} in
  save_new_boat new_boat ds.

Definition get_boat (ds : datastore) (id : string) : fetched boat :=
  let key := parseInt id in
  {| data := ds_boats ds !! key; id := id |}.

Definition put_boat (id : string) (name type length : jsval)
    (loads : list load_ref) (public owner : jsval)
    (ds : datastore) : key * datastore :=
  let key := parseInt id in
  let boat := {| b_name := name; b_type := type; b_length := length;
                 b_public := public; b_owner := JStr (ToString owner);
                 b_loads := loads |} in
  (Complete key, save_boat key boat ds).

(** [datastore.get] is issued before [datastore.delete], so its
    callback sees the boat.  The callback calls
    [remove_load_from_boat(id, load.id)]: the one parameter of that
    function, [loadID], is bound to the boat's [id], and [load.id] is
    dropped. *)
Definition delete_boat (id : string) (ds : datastore) : datastore :=
  let key := parseInt id in
  let data := ds_boats ds !! key in
  let ds1 := delete_boat_key key ds in
  match data with
  | Some b =>
      if 0 <? Z.of_nat (List.length (b_loads b)) then
        fold_left (fun s (load : load_ref) =>
                     LoadModel.remove_load_from_boat id s)
                  (b_loads b) ds1
      else ds1
  | None => ds1
  end.

(** [`${req.protocol}://${req.get("host")}/loads/${loadID}`] *)
Definition load_self (req : request) (loadID : string) : string :=
  protocol req +:+ "://" +:+ opt_text (host req) +:+ "/loads/" +:+ loadID.

(** The load is updated first, then the boat is read and saved with
    the new entry pushed on its [loads]; the second chain is detached,
    and on a missing boat its callback throws and nothing is saved. *)
Definition load_boat (boatID loadID : string) (req : request)
    (ds : datastore) : datastore :=
  let ds1 := LoadModel.add_load_to_boat boatID loadID ds in
  let boatKey := parseInt boatID in
  match ds_boats ds1 !! boatKey with
  | None => ds1
  | Some d =>
      let loadObject := {| ref_id := loadID;
                           ref_self := load_self req loadID |} in
      let loads := (b_loads d ++ [loadObject])%list in
      let newBoat := {| b_name := b_name d; b_type := b_type d;
                        b_length := b_length d; b_loads := loads;
                        b_public := b_public d; b_owner := b_owner d |} in
      save_boat boatKey newBoat ds1
  end.

(** The guard [data[0] !== undefined && data[0].loads] is the test
    that the boat is stored: [loads] is an array, which is truthy. *)
Definition unload_boat (boatID loadID : string) (ds : datastore) : datastore :=
  let ds1 := LoadModel.remove_load_from_boat loadID ds in
  let boatKey := parseInt boatID in
  match ds_boats ds1 !! boatKey with
  | Some d =>
      let newLoads :=
        List.filter (fun load => negb (String.eqb (ref_id load) loadID))
                    (b_loads d) in
      let newBoat := {| b_name := b_name d; b_type := b_type d;
                        b_length := b_length d; b_loads := newLoads;
                        b_public := b_public d; b_owner := b_owner d |} in
      save_boat boatKey newBoat ds1
  | None => ds1
  end.

(** [unload_boat] with its reads and its writes apart: the two reads
    are answered from [seen], the store when the function is called,
    and the two saves land on [ds], the store when the callbacks run.
    A load or boat that the read does not find is not saved. *)
Definition unload_boat_from (boatID loadID : string) (seen ds : datastore)
    : datastore :=
  let loadKey := parseInt loadID in
  let ds1 :=
    match ds_loads seen !! loadKey with
    | Some d =>
        let newLoad := {| l_weight := l_weight d;
                          l_content := l_content d;
                          l_delivery_date := l_delivery_date d;
                          l_current_boat := JNull |} in
        save_load loadKey newLoad ds
    | None => ds
    end in
  let boatKey := parseInt boatID in
  match ds_boats seen !! boatKey with
  | Some d =>
      let newLoads :=
        List.filter (fun load => negb (String.eqb (ref_id load) loadID))
                    (b_loads d) in
      let newBoat := {| b_name := b_name d; b_type := b_type d;
                        b_length := b_length d; b_loads := newLoads;
                        b_public := b_public d; b_owner := b_owner d |} in
      save_boat boatKey newBoat ds1
  | None => ds1
  end.
End WithRuntime.
End BoatModel.

(** ** controllers/boat.js *)

Module BoatController.
Section WithRuntime.
Context `{Runtime} `{QueryEngine}.

(** The argument of [format_response]: the object [get_boat] builds,
    or an entity of a query result. *)
Inductive boat_arg :=
| Fetched (f : fetched boat)
| Listed (id : string) (b : boat).

Definition format_response (boat : boat_arg) (req : request) : boat_json :=
  match boat with
  | Fetched f =>
      match data f with
      | Some d =>
          {| bj_id := id f; bj_name := b_name d; bj_type := b_type d;
             bj_length := b_length d; bj_loads := Some (b_loads d);
             bj_owner := b_owner d; bj_self := self_link req (id f) |}
      | None =>
          {| bj_id := id f; bj_name := JUndefined; bj_type := JUndefined;
             bj_length := JUndefined; bj_loads := None;
             bj_owner := JUndefined; bj_self := self_link req (id f) |}
      end
  | Listed i b =>
      {| bj_id := i; bj_name := b_name b; bj_type := b_type b;
         bj_length := b_length b; bj_loads := Some (b_loads b);
         bj_owner := b_owner b; bj_self := self_link req i |}
  end.

(** Returns a boolean, [undefined] for a method that is neither POST,
    PUT nor PATCH, or throws where [name.length] is read from
    [undefined] or [null]. *)
Definition validate_request (req : request) : outcome jsval :=
  let name := prop req "name" in
  let type := prop req "type" in
  let length := prop req "length" in
  let owner := prop req "owner" in
  let public := prop req "public" in
  let httpVerb := method req in
  if String.eqb httpVerb "POST" || String.eqb httpVerb "PUT" then
    if negb (truthy name) || negb (truthy type) || negb (truthy length)
       || negb (truthy owner) || negb (truthy public)
    then Returned (JBool false)
    else
      len ← get_length name;
      if gt len 25 then Returned (JBool false)
      else if negb (pattern_test name) || negb (pattern_test type)
      then Returned (JBool false)
      else if gt length 1000 then Returned (JBool false)
      else Returned (JBool true)
  else if String.eqb httpVerb "PATCH" then
    if truthy (prop req "id") then Returned (JBool false)
    else if negb (truthy name) && negb (truthy type) && negb (truthy length)
            && negb (truthy owner) && negb (truthy public)
    then Returned (JBool false)
    else
      len ← get_length name;
      if gt len 25 then Returned (JBool false)
      else if negb (pattern_test name) || negb (pattern_test type)
      then Returned (JBool false)
      else if gt length 1000 then Returned (JBool false)
      else Returned (JBool true)
  else Returned JUndefined.

Definition invalid_request : string :=
  "The request object is missing at least one of the required attributes, or they are invalid".

Definition create_boat (loc : locals) (req : request) (ds : datastore)
    : outcome (response * datastore) :=
  if isValid loc then
    let contentTypeSent := content_type req in
    if negb (accepts_json req) then
      Returned (error 406 "Requested a content type that is not supported", ds)
    else if not_json contentTypeSent then
      Returned (error 415 "Request includes an unsupported media type", ds)
    else
      valid ← validate_request req;
      if negb (truthy valid) then
        Returned (error 400 invalid_request, ds)
      else
        let '(boatKey, ds1) :=
          BoatModel.post_boat (prop req "name") (prop req "type")
            (prop req "length") (prop req "public") (prop req "owner") ds in
        if negb (key_truthy boatKey) then
          Returned (error 403 "The supplied name is already in use", ds1)
        else
          let boat := BoatModel.get_boat ds1 (key_id boatKey) in
          Returned (json 201 (PBoat (format_response (Fetched boat) req)), ds1)
  else
    Returned (error 401 "Missing or invalid token", ds).

Definition get_all_boats (loc : locals) (req : request) (ds : datastore)
    : outcome (response * datastore) :=
  if negb (accepts_json req) then
    Returned (error 406 "Requested a content type that is not supported", ds)
  else if isValid loc then
    let boats := run_boat_query ds (OwnedBy (userid loc))
                   (query_limit req) (query_offset req) in
    let returnBoats :=
      map (fun boat => format_response (Listed (fst boat) (snd boat)) req) boats in
    let returnObject := {| items := returnBoats;
                           offset := query_offset req;
                           limit := query_limit req;
                           count := 5;
                           next := next_link req |} in
    Returned (json 200 (PBoats returnObject), ds)
  else
    let boats := run_boat_query ds PublicBoats
                   (query_limit req) (query_offset req) in
    let returnBoats :=
      map (fun boat => format_response (Listed (fst boat) (snd boat)) req) boats in
    let returnObject := {| items := returnBoats;
                           offset := query_offset req;
                           limit := query_limit req;
                           count := 5;
                           next := next_link req |} in
    Returned (json 200 (PBoats returnObject), ds).

Definition put_boat (loc : locals) (req : request) (ds : datastore)
    : outcome (response * datastore) :=
  let contentTypeSent := content_type req in
  if negb (accepts_json req) then
    Returned (error 406 "Requested a content type that is not supported", ds)
  else if not_json contentTypeSent then
    Returned (error 415 "Request includes an unsupported media type", ds)
  else
    valid ← validate_request req;
    if negb (truthy valid) then
      Returned (error 400 invalid_request, ds)
    else
      let boat := BoatModel.get_boat ds (boat_id req) in
      match data boat with
      | None => Returned (error 404 "No boat with this boat_id exists", ds)
      | Some d =>
          if negb (strict_eq (b_owner d) (userid loc)) then
            Returned (error 401 "You are not the owner of this boat, and can't edit it", ds)
          else
            let '(boatKey, ds1) :=
              BoatModel.put_boat (boat_id req) (prop req "name")
                (prop req "type") (prop req "length") (b_loads d)
                (prop req "public") (prop req "owner") ds in
            if negb (key_truthy boatKey) then
              Returned (error 403 "The supplied name is already in use", ds1)
            else
              let response := format_response (Fetched boat) req in
              Returned (see_other (bj_self response), ds1)
      end.

(** [x] if it is truthy, the stored value otherwise. *)
Definition or_stored (x stored : jsval) : jsval :=
  if negb (truthy x) then stored else x.

Definition patch_boat (loc : locals) (req : request) (ds : datastore)
    : outcome (response * datastore) :=
  let contentTypeSent := content_type req in
  if negb (accepts_json req) then
    Returned (error 406 "Requested a content type that is not supported", ds)
  else if not_json contentTypeSent then
    Returned (error 415 "Request includes an unsupported media type", ds)
  else
    valid ← validate_request req;
    if negb (truthy valid) then
      Returned (error 400 invalid_request, ds)
    else
      let boat := BoatModel.get_boat ds (boat_id req) in
      match data boat with
      | None => Returned (error 404 "No boat with this boat_id exists", ds)
      | Some d =>
          let name := or_stored (prop req "name") (b_name d) in
          let type := or_stored (prop req "type") (b_type d) in
          let length := or_stored (prop req "length") (b_length d) in
          let public := or_stored (prop req "public") (b_public d) in
          let owner := or_stored (prop req "owner") (b_owner d) in
          if negb (strict_eq (b_owner d) (userid loc)) then
            Returned (error 401 "You are not the owner of this boat, and can't edit it", ds)
          else
            let '(boatKey, ds1) :=
              BoatModel.put_boat (boat_id req) name type length (b_loads d)
                public owner ds in
            if negb (key_truthy boatKey) then
              Returned (error 403 "The supplied name is already in use", ds1)
            else
              let editedBoat := BoatModel.get_boat ds1 (boat_id req) in
              Returned (json 200 (PBoat (format_response (Fetched editedBoat) req)), ds1)
      end.

Definition delete_boat (loc : locals) (req : request) (ds : datastore)
    : outcome (response * datastore) :=
  let contentTypeSent := content_type req in
  if header_truthy contentTypeSent then
    Returned (error 415 "Request includes an unsupported media type", ds)
  else
    let boat := BoatModel.get_boat ds (boat_id req) in
    match data boat with
    | None => Returned (error 404 "No boat with this boat_id exists", ds)
    | Some d =>
        if negb (strict_eq (b_owner d) (userid loc)) then
          Returned (error 401 "You are not the owner of this boat, and can't delete it", ds)
        else
          let ds1 := BoatModel.delete_boat (boat_id req) ds in
          Returned (finish 204, ds1)
    end.

Definition load_boat (req : request) (ds : datastore)
    : outcome (response * datastore) :=
  let boatID := boat_id req in
  let loadID := load_id req in
  let boat := BoatModel.get_boat ds boatID in
  match data boat with
  | None =>
      Returned (error 404 "The specified boat and/or load does not exist", ds)
  | Some _ =>
      let load := LoadModel.get_load ds loadID in
      match data load with
      | None =>
          Returned (error 404 "The specified boat and/or load does not exist", ds)
      | Some l =>
          if negb (strict_eq (l_current_boat l) JNull)
             && strict_eq (l_current_boat l) (JStr boatID)
          then
            Returned (error 403 "The load is already assigned to another boat_id", ds)
          else
            let ds1 := BoatModel.load_boat boatID loadID req ds in
            Returned (finish 204, ds1)
      end
  end.

Definition unload_boat (req : request) (ds : datastore)
    : outcome (response * datastore) :=
  let boatID := boat_id req in
  let loadID := load_id req in
  let boat := BoatModel.get_boat ds boatID in
  match data boat with
  | None =>
      Returned (error 404 "No load with this load_id is at the boat with this boat_id", ds)
  | Some _ =>
      let load := LoadModel.get_load ds loadID in
      match data load with
      | None =>
          Returned (error 404 "No load with this load_id is at the boat with this boat_id", ds)
      | Some l =>
          if negb (strict_eq (l_current_boat l) (JStr boatID)) then
            Returned (error 404 "No load with this load_id is at the boat with this boat_id", ds)
          else
            let ds1 := BoatModel.unload_boat boatID loadID ds in
            Returned (finish 204, ds1)
      end
  end.
(** What [get_boat_loads] sends: an error object, or the boat's
    [loads] array itself. *)
Inductive loads_reply :=
| Refused (r : response)
| LoadRefs (code : Z) (refs : list load_ref).

(** [boat.data.owner !== res.locals.userid && boat.data.public !== "true"] *)
Definition hidden_from (loc : locals) (d : boat) : bool :=
  negb (strict_eq (b_owner d) (userid loc))
  && negb (strict_eq (b_public d) (JStr "true")).

Definition get_boat (loc : locals) (req : request) (ds : datastore)
    : outcome (response * datastore) :=
  let contentTypeSent := content_type req in
  if negb (accepts_json req) then
    Returned (error 406 "Requested a content type that is not supported", ds)
  else if header_truthy contentTypeSent then
    Returned (error 415 "Request includes an unsupported media type", ds)
  else if isValid loc then
    let boat := BoatModel.get_boat ds (boat_id req) in
    match data boat with
    | None => Returned (error 404 "No boat with this boat_id exists", ds)
    | Some d =>
        if hidden_from loc d then
          Returned (error 401 "You are not the owner of this boat, and can't view it", ds)
        else
          Returned (json 200 (PBoat (format_response (Fetched boat) req)), ds)
    end
  else
    Returned (error 401 "Missing or invalid token", ds).

Definition get_boat_loads (loc : locals) (req : request) (ds : datastore)
    : outcome (loads_reply * datastore) :=
  if negb (accepts_json req) then
    Returned (Refused (error 406 "Requested a content type that is not supported"), ds)
  else
    let boatID := boat_id req in
    let boat := BoatModel.get_boat ds boatID in
    match data boat with
    | None => Returned (Refused (error 404 "No boat with this boat_id exists"), ds)
    | Some d =>
        if hidden_from loc d then
          Returned (Refused (error 401 "You are not the owner of this boat, and can't view it"), ds)
        else
          Returned (LoadRefs 200 (b_loads d), ds)
    end.
End WithRuntime.
End BoatController.

(** ** controllers/load.js *)

Module LoadController.
Section WithRuntime.
Context `{Runtime} `{QueryEngine}.

(** The argument of [format_response]: the object [get_load] builds,
    an entity of a query result, or the key [put_load] returns. *)
Inductive load_arg :=
| Fetched (f : fetched load)
| Listed (id : string) (l : load)
| Keyed (k : key).

(** The function reads [current_load], a property that no load
    entity has: the field of the answer is always [undefined]. *)
Definition format_response (load : load_arg) (req : request) : load_json :=
  match load with
  | Fetched f =>
      match data f with
      | Some d =>
          {| lj_id := id f; lj_weight := l_weight d;
             lj_content := l_content d;
             lj_delivery_date := l_delivery_date d;
             lj_current_load := JUndefined;
             lj_self := self_link req (id f) |}
      | None =>
          {| lj_id := id f; lj_weight := JUndefined;
             lj_content := JUndefined; lj_delivery_date := JUndefined;
             lj_current_load := JUndefined;
             lj_self := self_link req (id f) |}
      end
  | Listed i l =>
      {| lj_id := i; lj_weight := l_weight l; lj_content := l_content l;
         lj_delivery_date := l_delivery_date l;
         lj_current_load := JUndefined;
         lj_self := self_link req i |}
  | Keyed k =>
      {| lj_id := key_id k; lj_weight := JUndefined;
         lj_content := JUndefined; lj_delivery_date := JUndefined;
         lj_current_load := JUndefined;
         lj_self := self_link req (key_id k) |}
  end.

Definition validate_request (req : request) : jsval :=
  let weight := prop req "weight" in
  let content := prop req "content" in
  let delivery_date := prop req "delivery_date" in
  let current_boat := prop req "current_boat" in
  let httpVerb := method req in
  if String.eqb httpVerb "POST" || String.eqb httpVerb "PUT" then
    if negb (truthy weight) || negb (truthy content) || negb (truthy content)
       || negb (truthy delivery_date) || negb (truthy current_boat)
    then JBool false
    else if negb (pattern_test weight) || negb (pattern_test content)
    then JBool false
    else if gt content 1000 then JBool false
    else JBool true
  else if String.eqb httpVerb "PATCH" then
    if truthy (prop req "id") then JBool false
    else if negb (truthy weight) && negb (truthy content)
            && negb (truthy content) && negb (truthy delivery_date)
            && negb (truthy current_boat)
    then JBool false
    else if negb (pattern_test weight) || negb (pattern_test content)
    then JBool false
    else if gt content 1000 then JBool false
    else JBool true
  else JUndefined.

Definition invalid_request : string :=
  "The request object is missing at least one of the required attributes, or they are invalid".

Definition get_load (req : request) (ds : datastore)
    : outcome (response * datastore) :=
  let load := LoadModel.get_load ds (load_id req) in
  match data load with
  | Some _ =>
      Returned (json 200 (PLoad (format_response (Fetched load) req)), ds)
  | None =>
      Returned (error 404 "No load with this load_id exists", ds)
  end.

Definition get_all_loads (req : request) (ds : datastore)
    : outcome (response * datastore) :=
  let loads := run_load_query ds (query_limit req) (query_offset req) in
  let returnLoads :=
    map (fun load => format_response (Listed (fst load) (snd load)) req) loads in
  let returnObject := {| items := returnLoads;
                         offset := query_offset req;
                         limit := query_limit req;
                         count := 5;
                         next := next_link req |} in
  Returned (json 200 (PLoads returnObject), ds).

Definition put_load (req : request) (ds : datastore)
    : outcome (response * datastore) :=
  let contentTypeSent := content_type req in
  if negb (accepts_json req) then
    Returned (error 406 "Requested a content type that is not supported", ds)
  else if not_json contentTypeSent then
    Returned (error 415 "Request includes an unsupported media type", ds)
  else if negb (truthy (validate_request req)) then
    Returned (error 400 invalid_request, ds)
  else
    let load := LoadModel.get_load ds (load_id req) in
    match data load with
    | None => Returned (error 404 "No load with this load_id exists", ds)
    | Some _ =>
        saved ← LoadModel.put_load (load_id req) (prop req "weight")
                  (prop req "content") (prop req "delivery_date")
                  (prop req "current_boat") ds;
        let '(loadKey, ds1) := saved in
        let response := format_response (Keyed loadKey) req in
        Returned (see_other (lj_self response), ds1)
    end.
Definition create_load (req : request) (ds : datastore)
    : outcome (response * datastore) :=
  if negb (truthy (prop req "weight")) || negb (truthy (prop req "content"))
     || negb (truthy (prop req "delivery_date"))
  then
    Returned (error 400 "The request object is missing at least one of the requried attributes", ds)
  else
    let '(loadKey, ds1) :=
      LoadModel.post_load (prop req "weight") (prop req "content")
        (prop req "delivery_date") ds in
    let load := LoadModel.get_load ds1 (key_id loadKey) in
    Returned (json 201 (PLoad (format_response (Fetched load) req)), ds1).

(** [boatModel.unload_boat(boatID, ...)] hands the stored
    [current_boat] to [parseInt], which reads its text.  It returns
    once its two reads are issued; [datastore.delete] is issued next,
    and the saves of the two detached chains follow it: the store
    calls are get Load, get Load, get Boat, delete Load, save Load,
    save Boat. *)
Definition delete_load (req : request) (ds : datastore)
    : outcome (response * datastore) :=
  let load := LoadModel.get_load ds (load_id req) in
  match data load with
  | None => Returned (error 404 "No load with this load_id exists", ds)
  | Some l =>
      let boatID := l_current_boat l in
      let ds1 := LoadModel.delete_load (load_id req) ds in
      let ds2 :=
        if truthy boatID
        then BoatModel.unload_boat_from (ToString boatID) (load_id req) ds ds1
        else ds1 in
      Returned (finish 204, ds2)
  end.

(** The arguments of the call to [loadModel.put_load] are [name],
    [type], [length], [public] and [owner], which nothing in the file
    declares: evaluating the first of them is a ReferenceError. *)
Definition patch_load (req : request) (ds : datastore)
    : outcome (response * datastore) :=
  let contentTypeSent := content_type req in
  if negb (accepts_json req) then
    Returned (error 406 "Requested a content type that is not supported", ds)
  else if not_json contentTypeSent then
    Returned (error 415 "Request includes an unsupported media type", ds)
  else if negb (truthy (validate_request req)) then
    Returned (error 400 invalid_request, ds)
  else
    let load := LoadModel.get_load ds (load_id req) in
    match data load with
    | None => Returned (error 404 "No load with this load_id exists", ds)
    | Some _ => Thrown ReferenceError
    end.
End WithRuntime.
End LoadController.

(** ** models/user.js *)

Module UserModel.

(** A stored User entity. *)
Record user := { uuid : jsval }.

(** The User kind, and the counter for its new entities. *)
Record userstore := {
  us_users : gmap number user;
  us_next : Z
}.

(** The id of a stored entity, as the store spells it. *)
Definition entity_id (k : number) : string :=
  match k with
  | Int z => id_text z
  | NaN => "NaN"
  end.

(** The query has neither filter nor limit: every user is returned,
    with the id [fromDatastore] copies from its key. *)
Definition get_all_users (us : userstore) : list (string * user) :=
  map (fun ku => (entity_id (fst ku), snd ku)) (map_to_list (us_users us)).

(** Returns [false] ([None]) when a user with this uuid is stored, the
    key of the new user otherwise. *)
Definition post_user (user_id : jsval) (us : userstore) : option key * userstore :=
  let new_user := {| uuid := user_id |} in
  let all_users := get_all_users us in
  let duplicates :=
    List.filter (fun user => strict_eq (uuid (snd user)) user_id) all_users in
  if 0 <? Z.of_nat (List.length duplicates) then (None, us)
  else
    (Some (Allocated (id_text (us_next us))),
     {| us_users := <[Int (us_next us) := new_user]> (us_users us);
        us_next := us_next us + 1 |}).

End UserModel.

(** ** The token middleware of controllers/user.js *)

Module UserController.

(** What [client.verifyIdToken] and [ticket.getPayload()] come to: the
    [sub] of the payload, or an error with its message. *)
Inductive ticket :=
| Verified (sub : jsval)
| Failed (message : string).

(** The middleware either calls [next()], with [res.locals] as it
    leaves it, or answers itself. *)
Inductive passage :=
| Next (loc : locals)
| Stopped (r : response).

(** [s.split(" ")]. *)
Fixpoint split_space_go (s : string) (cur : string) : list string :=
  match s with
  | EmptyString => [cur]
  | String c rest =>
      if Ascii.eqb c " " then cur :: split_space_go rest ""
      else split_space_go rest (cur +:+ String c "")
  end.

Definition split_space (s : string) : list string := split_space_go s "".

(** [authHeader && authHeader.split(" ")[1]]: [None] is [undefined]. *)
Definition bearer (authHeader : option string) : option string :=
  match authHeader with
  | None => None
  | Some h => if String.eqb h "" then Some h else split_space h !! 1%nat
  end.

Section WithVerifier.
Variable verifyIdToken : string -> ticket.

Definition authenticateToken (authHeader : option string) : passage :=
  let token := bearer authHeader in
  match token with
  | Some t =>
      match verifyIdToken t with
      | Verified userid =>
          let isValid := negb (strict_eq userid JUndefined) in
          Next {| isValid := isValid; userid := userid |}
      | Failed message => Stopped (error 403 message)
      end
  | None => Next {| isValid := false; userid := JUndefined |}
  end.

(** [router.use("/boats", authenticateToken)] in front of
    [router.get("/boats/:boat_id", get_boat)]. *)
Definition get_boat_route `{Runtime} (authHeader : option string)
    (req : request) (ds : datastore) : outcome (response * datastore) :=
  match authenticateToken authHeader with
  | Next loc => BoatController.get_boat loc req ds
  | Stopped r => Returned (r, ds)
  end.
End WithVerifier.

End UserController.

(** ** A runtime to evaluate with

    [parseInt] and the number conversions on ASCII decimal text.  The
    definitions give what the language gives on the strings and numbers
    of the examples below: optional white space and sign followed by
    decimal digits, and integers of ordinary size. *)

Module Node.

Definition is_space (c : ascii) : bool :=
  let n := Z.of_nat (nat_of_ascii c) in
  Z.eqb n 32 || ((9 <=? n) && (n <=? 13)).

Definition digit (c : ascii) : option Z :=
  let n := Z.of_nat (nat_of_ascii c) in
  if (48 <=? n) && (n <=? 57) then Some (n - 48) else None.

Fixpoint skip_space (s : string) : string :=
  match s with
  | String c rest => if is_space c then skip_space rest else s
  | EmptyString => s
  end.

(** The value of the longest prefix of digits, if there is a digit. *)
Fixpoint digits (s : string) (acc : option Z) : option Z :=
  match s with
  | String c rest =>
      match digit c with
      | Some d => digits rest (Some (10 * default 0 acc + d))
      | None => acc
      end
  | EmptyString => acc
  end.

(** Whether the string is made of digits only. *)
Fixpoint all_digits (s : string) : bool :=
  match s with
  | String c rest => bool_decide (is_Some (digit c)) && all_digits rest
  | EmptyString => true
  end.

Definition signed (s : string) : Z * string :=
  match s with
  | String "-" rest => (-1, rest)
  | String "+" rest => (1, rest)
  | _ => (1, s)
  end.

Definition parseInt10 (s : string) : number :=
  let '(sign, rest) := signed (skip_space s) in
  match digits rest None with
  | Some v => Int (sign * v)
  | None => NaN
  end.

Fixpoint drop_trailing_space (s : string) : string :=
  match s with
  | String c rest =>
      match drop_trailing_space rest with
      | EmptyString => if is_space c then EmptyString else String c EmptyString
      | r => String c r
      end
  | EmptyString => EmptyString
  end.

Definition string_to_number (s : string) : number :=
  let t := drop_trailing_space (skip_space s) in
  match t with
  | EmptyString => Int 0
  | _ =>
      let '(sign, rest) := signed t in
      if all_digits rest then
        match digits rest None with
        | Some v => Int (sign * v)
        | None => NaN
        end
      else NaN
  end.

Definition number_to_string (z : Z) : string :=
  NilZero.string_of_int (Z.to_int z).

Definition runtime : Runtime :=
  {| parseInt := parseInt10;
     StringToNumber := string_to_number;
     NumberToString := number_to_string |}.

(** A query engine that ignores limit and offset, for evaluation. *)
Definition engine : QueryEngine :=
  {| run_boat_query := fun ds f _ _ =>
       match f with
       | PublicBoats =>
           omap (fun kb => match fst kb with
                           | Int z => if strict_eq (b_public (snd kb)) (JBool true)
                                      then Some (id_text z, snd kb) else None
                           | NaN => None
                           end) (map_to_list (ds_boats ds))
       | OwnedBy u =>
           omap (fun kb => match fst kb with
                           | Int z => if strict_eq (b_owner (snd kb)) u
                                      then Some (id_text z, snd kb) else None
                           | NaN => None
                           end) (map_to_list (ds_boats ds))
       end;
     run_load_query := fun ds _ _ =>
       omap (fun kl => match fst kl with
                       | Int z => Some (id_text z, snd kl)
                       | NaN => None
                       end) (map_to_list (ds_loads ds)) |}.

End Node.

(** ** Vocabulary of the properties *)

Section Vocabulary.
Context `{Runtime}.

(** The load of the request is stored with [current_boat] strictly
    equal to the boat id of the request, and that boat is stored. *)
Definition assigned_here (req : request) (ds : datastore) : Prop :=
  exists b l,
    ds_boats ds !! parseInt (boat_id req) = Some b
    /\ ds_loads ds !! parseInt (load_id req) = Some l
    /\ l_current_boat l = JStr (boat_id req).

Definition not_at_boat : string :=
  "No load with this load_id is at the boat with this boat_id".

(** The text that follows [offset=] in the [next] link. *)
Definition next_offset (req : request) : string :=
  sum_text (plus (query_limit req) (query_offset req)).

(** The [next] link up to that text. *)
Definition next_base (req : request) : string :=
  protocol req +:+ "://" +:+ opt_text (host req) +:+ "/"
  +:+ collection req +:+ "/?limit=5&offset=".

(** All five required fields of the body are truthy. *)
Definition all_truthy (req : request) : bool :=
  truthy (prop req "name") && truthy (prop req "type")
  && truthy (prop req "length") && truthy (prop req "owner")
  && truthy (prop req "public").

(** One of [type], [length], [owner], [public] is truthy. *)
Definition some_other_truthy (req : request) : bool :=
  truthy (prop req "type") || truthy (prop req "length")
  || truthy (prop req "owner") || truthy (prop req "public").

Definition is_post_or_put (req : request) : bool :=
  String.eqb (method req) "POST" || String.eqb (method req) "PUT".

(** The status of a request that does not get past validation. *)
Definition turned_away (r : response) : Prop :=
  status r = 400 \/ status r = 401 \/ status r = 406 \/ status r = 415.

(** The request has passed the token check and content negotiation. *)
Definition reaches_validation (loc : locals) (req : request) : Prop :=
  isValid loc = true /\ accepts_json req = true
  /\ content_type req = Some "application/json".

(** The entry assign appends to a boat's [loads]. *)
Definition load_entry (req : request) : load_ref :=
  {| ref_id := load_id req;
     ref_self := BoatModel.load_self req (load_id req) |}.
End Vocabulary.

(** ** A small harbour

    Two boats of user u1, the second carrying load 3, and a free
    load 4; and requests to try on it. *)

Section Harbour.
Definition crates (current_boat : jsval) : load :=
  {| l_weight := JNum 100; l_content := JStr "crates";
     l_delivery_date := JStr "2024-01-01"; l_current_boat := current_boat |}.

Definition sloop (name : string) (loads : list load_ref) : boat :=
  {| b_name := JStr name; b_type := JStr "Sloop"; b_length := JNum 40;
     b_public := JBool true; b_owner := JStr "u1"; b_loads := loads |}.

Definition ref3 : load_ref :=
  {| ref_id := "3"; ref_self := "http://h/loads/3" |}.

Definition harbour : datastore :=
  {| ds_boats := <[Int 1 := sloop "Orca" []]> (<[Int 2 := sloop "Tuna" [ref3]]> ∅);
     ds_loads := <[Int 3 := crates (JStr "2")]> (<[Int 4 := crates JNull]> ∅);
     ds_next := 5 |}.

Definition u1 : locals := {| isValid := true; userid := JStr "u1" |}.

(** A request to host h that accepts JSON. *)
Definition request_to (method url : string) (content_type : option string)
    (boat_id load_id : string) (limit offset : qval)
    (body : list (string * jsval)) : request :=
  {| method := method; protocol := "http"; host := Some "h"; url := url;
     content_type := content_type; accepts_json := true;
     boat_id := boat_id; load_id := load_id;
     query_limit := limit; query_offset := offset;
     body := list_to_map body |}.

(** PUT /boats/1/loads/3 *)
Definition assign_3_to_1 : request :=
  request_to "PUT" "/boats/1/loads/3" None "1" "3" QAbsent QAbsent [].

(** PUT /boats/2/loads/3 *)
Definition assign_3_to_2 : request :=
  request_to "PUT" "/boats/2/loads/3" None "2" "3" QAbsent QAbsent [].

(** DELETE /boats/2/loads/3 *)
Definition unassign_3_from_2 : request :=
  request_to "DELETE" "/boats/2/loads/3" None "2" "3" QAbsent QAbsent [].

(** DELETE /boats/2 *)
Definition delete_2 : request :=
  request_to "DELETE" "/boats/2" None "2" "" QAbsent QAbsent [].

(** GET /loads/3 *)
Definition get_3 : request :=
  request_to "GET" "/loads/3" None "" "3" QAbsent QAbsent [].

(** POST /boats with the name of boat 1 *)
Definition post_orca : request :=
  request_to "POST" "/boats" (Some "application/json") "" "" QAbsent QAbsent
    [("name", JStr "Orca"); ("type", JStr "Sloop"); ("length", JNum 40);
     ("owner", JStr "u1"); ("public", JBool true)].

(** POST /boats with public false *)
Definition post_private : request :=
  request_to "POST" "/boats" (Some "application/json") "" "" QAbsent QAbsent
    [("name", JStr "Pike"); ("type", JStr "Sloop"); ("length", JNum 40);
     ("owner", JStr "u1"); ("public", JBool false)].

(** PUT /loads/3 with a complete body *)
Definition put_3 : request :=
  request_to "PUT" "/loads/3" (Some "application/json") "" "3" QAbsent QAbsent
    [("weight", JNum 100); ("content", JStr "crates");
     ("delivery_date", JStr "2024-01-01"); ("current_boat", JStr "2")].

(** GET /loads?limit=5 *)
Definition list_limit_only : request :=
  request_to "GET" "/loads?limit=5" None "" "" (QStr "5") QAbsent [].

(** PATCH /boats/1 with a type and no name *)
Definition patch_type : request :=
  request_to "PATCH" "/boats/1" (Some "application/json") "1" "" QAbsent QAbsent
    [("type", JStr "Ketch")].

(** PATCH /boats/1 with a type, an id and no name *)
Definition patch_type_id : request :=
  request_to "PATCH" "/boats/1" (Some "application/json") "1" "" QAbsent QAbsent
    [("type", JStr "Ketch"); ("id", JNum 7)].

(** PATCH /boats/1 with public false and no name *)
Definition patch_public_false : request :=
  request_to "PATCH" "/boats/1" (Some "application/json") "1" "" QAbsent QAbsent
    [("public", JBool false)].

(** Whether [needle] occurs in [s]. *)
Fixpoint mentions (needle s : string) : bool :=
  String.prefix needle s
  || match s with
     | String _ rest => mentions needle rest
     | EmptyString => false
     end.
End Harbour.

(** ** More vocabulary *)

Section Relations.
Context `{Runtime}.

(** [b'] is [b] but for its [loads]. *)
Definition same_boat_but_loads (b b' : boat) : Prop :=
  b_name b' = b_name b /\ b_type b' = b_type b /\ b_length b' = b_length b
  /\ b_public b' = b_public b /\ b_owner b' = b_owner b.

(** [l'] is [l] but for its [current_boat]. *)
Definition same_load_but_boat (l l' : load) : Prop :=
  l_weight l' = l_weight l /\ l_content l' = l_content l
  /\ l_delivery_date l' = l_delivery_date l.

(** No entry of the boat's [loads] has this id. *)
Definition lists_no (loadID : string) (b : boat) : Prop :=
  Forall (fun ref => ref_id ref ≠ loadID) (b_loads b).

(** The boat may be shown to the holder of these locals. *)
Definition visible_to (loc : locals) (d : boat) : Prop :=
  b_owner d = userid loc \/ b_public d = JStr "true".


(** The boat a PUT stores in place of [d]. *)
Definition replacement (req : request) (d : boat) : boat :=
  {| b_name := prop req "name"; b_type := prop req "type";
     b_length := prop req "length"; b_public := prop req "public";
     b_owner := JStr (ToString (prop req "owner"));
     b_loads := b_loads d |}.

(** The boat a POST stores. *)
Definition launched (req : request) : boat :=
  {| b_name := prop req "name"; b_type := prop req "type";
     b_length := prop req "length"; b_public := prop req "public";
     b_owner := prop req "owner"; b_loads := [] |}.

(** The load a POST stores. *)
Definition consigned (req : request) : load :=
  {| l_weight := prop req "weight"; l_content := prop req "content";
     l_delivery_date := prop req "delivery_date"; l_current_boat := JNull |}.

(** The load with its back-reference cleared. *)
Definition cleared (l : load) : load :=
  {| l_weight := l_weight l; l_content := l_content l;
     l_delivery_date := l_delivery_date l; l_current_boat := JNull |}.

(** A status with which a request to update a load is turned down. *)
Definition turned_away_or_missing (r : response) : Prop :=
  status r = 400 \/ status r = 404 \/ status r = 406 \/ status r = 415.

(** The string has no slash. *)
Fixpoint no_slash (s : string) : bool :=
  match s with
  | EmptyString => true
  | String c rest => negb (Ascii.eqb c "/") && no_slash rest
  end.

(** No two stored users have the same uuid. *)
Definition unique_uuids (us : UserModel.userstore) : Prop :=
  forall k1 k2 u1 u2,
    UserModel.us_users us !! k1 = Some u1 ->
    UserModel.us_users us !! k2 = Some u2 ->
    UserModel.uuid u1 = UserModel.uuid u2 -> k1 = k2.

(** A user with this uuid is stored. *)
Definition known (user_id : jsval) (us : UserModel.userstore) : Prop :=
  exists k u, UserModel.us_users us !! k = Some u /\ UserModel.uuid u = user_id.
End Relations.

(** ** More of the harbour *)

Section Quay.
(** Another user, with a valid token. *)
Definition u2 : locals := {| isValid := true; userid := JStr "u2" |}.

(** PUT /boats/1/loads/4 *)
Definition assign_4_to_1 : request :=
  request_to "PUT" "/boats/1/loads/4" None "1" "4" QAbsent QAbsent [].

(** DELETE /loads/3 *)
Definition delete_load_3 : request :=
  request_to "DELETE" "/loads/3" None "" "3" QAbsent QAbsent [].

(** GET /boats/1 *)
Definition get_boat_1 : request :=
  request_to "GET" "/boats/1" None "1" "" QAbsent QAbsent [].

(** GET /boats/5 *)
Definition get_boat_5 : request :=
  request_to "GET" "/boats/5" None "5" "" QAbsent QAbsent [].

(** GET /boats/2/loads *)
Definition get_loads_of_2 : request :=
  request_to "GET" "/boats/2/loads" None "2" "" QAbsent QAbsent [].

(** GET /boats?limit=5&offset=0 *)
Definition list_boats : request :=
  request_to "GET" "/boats?limit=5&offset=0" None "" "" (QStr "5") (QStr "0") [].

(** PUT /boats/1 renaming the boat and changing its length *)
Definition put_boat_1 : request :=
  request_to "PUT" "/boats/1" (Some "application/json") "1" "" QAbsent QAbsent
    [("name", JStr "Orca 2"); ("type", JStr "Ketch"); ("length", JNum 45);
     ("owner", JStr "u1"); ("public", JBool true)].

(** PUT /boats/2 with the same body: boat 2 carries load 3 *)
Definition put_boat_2 : request :=
  request_to "PUT" "/boats/2" (Some "application/json") "2" "" QAbsent QAbsent
    [("name", JStr "Orca 2"); ("type", JStr "Ketch"); ("length", JNum 45);
     ("owner", JStr "u1"); ("public", JBool true)].


(** PATCH /loads/3 with a weight *)
Definition patch_load_3 : request :=
  request_to "PATCH" "/loads/3" (Some "application/json") "" "3" QAbsent QAbsent
    [("weight", JNum 120)].

(** A store in which a load has the id of a boat: boat 2 carries
    load 3, and load 2 is on boat 1. *)
Definition twins : datastore :=
  {| ds_boats := <[Int 1 := sloop "Orca" []]> (<[Int 2 := sloop "Tuna" [ref3]]> ∅);
     ds_loads := <[Int 2 := crates (JStr "1")]> (<[Int 3 := crates (JStr "2")]> ∅);
     ds_next := 4 |}.

(** One registered user. *)
Definition crew : UserModel.userstore :=
  {| UserModel.us_users := <[Int 1 := {| UserModel.uuid := JStr "u1" |}]> ∅;
     UserModel.us_next := 2 |}.

(** A verifier that knows one token. *)
Definition verifier (token : string) : UserController.ticket :=
  if String.eqb token "good" then UserController.Verified (JStr "u1")
  else UserController.Failed "Wrong number of segments in token".
End Quay.

(** * Properties *)

(** ** What the model functions leave alone *)

Section ModelFacts.
Context `{Runtime}.

Lemma add_load_to_boat_boats boatID loadID ds :
  ds_boats (LoadModel.add_load_to_boat boatID loadID ds) = ds_boats ds.
Proof.
  unfold LoadModel.add_load_to_boat.
  destruct (ds_loads ds !! parseInt loadID) as [d|]; [|reflexivity].
  destruct (negb (truthy (l_current_boat d))); reflexivity.
Qed.

Lemma remove_load_from_boat_boats loadID ds :
  ds_boats (LoadModel.remove_load_from_boat loadID ds) = ds_boats ds.
Proof.
  unfold LoadModel.remove_load_from_boat.
  destruct (ds_loads ds !! parseInt loadID); reflexivity.
Qed.

Lemma remove_load_from_boat_other loadID ds k :
  k ≠ parseInt loadID ->
  ds_loads (LoadModel.remove_load_from_boat loadID ds) !! k = ds_loads ds !! k.
Proof.
  intros Hk. unfold LoadModel.remove_load_from_boat.
  destruct (ds_loads ds !! parseInt loadID); [|reflexivity].
  simpl. by rewrite lookup_insert_ne.
Qed.

Lemma remove_load_from_boat_cleared loadID ds d :
  ds_loads ds !! parseInt loadID = Some d ->
  l_current_boat <$> ds_loads (LoadModel.remove_load_from_boat loadID ds)
                       !! parseInt loadID = Some JNull.
Proof.
  intros Hd. unfold LoadModel.remove_load_from_boat. rewrite Hd. simpl.
  by rewrite lookup_insert_eq.
Qed.

Lemma unload_boat_loads boatID loadID ds :
  ds_loads (BoatModel.unload_boat boatID loadID ds)
  = ds_loads (LoadModel.remove_load_from_boat loadID ds).
Proof.
  unfold BoatModel.unload_boat.
  destruct (ds_boats _ !! parseInt boatID); reflexivity.
Qed.

Lemma unload_boat_filtered boatID loadID ds b :
  ds_boats ds !! parseInt boatID = Some b ->
  b_loads <$> ds_boats (BoatModel.unload_boat boatID loadID ds) !! parseInt boatID
  = Some (List.filter (fun load => negb (String.eqb (ref_id load) loadID))
                      (b_loads b)).
Proof.
  intros Hb. unfold BoatModel.unload_boat.
  rewrite remove_load_from_boat_boats, Hb. simpl.
  by rewrite lookup_insert_eq.
Qed.

Lemma unload_boat_keeps_boat boatID loadID ds :
  is_Some (ds_boats ds !! parseInt boatID) ->
  is_Some (ds_boats (BoatModel.unload_boat boatID loadID ds) !! parseInt boatID).
Proof.
  intros [b Hb]. unfold BoatModel.unload_boat.
  rewrite remove_load_from_boat_boats, Hb. simpl.
  rewrite lookup_insert_eq. eauto.
Qed.

Lemma strict_eq_true x y : strict_eq x y = true <-> x = y.
Proof. unfold strict_eq. apply bool_decide_eq_true. Qed.

Lemma strict_eq_false x y : strict_eq x y = false <-> x ≠ y.
Proof. unfold strict_eq. apply bool_decide_eq_false. Qed.
End ModelFacts.

(** ** The assign guard *)

Section Assign.
Context `{Runtime}.

(** C3.  For an existing boat and an existing load, assign answers
    403 exactly when the load's [current_boat] is not null and is
    strictly equal to the boat id of the request; every other state
    of the load, a different boat id included, passes the guard and
    is answered 204. *)
Theorem load_boat_conflict_iff (req : request) (ds : datastore) (b : boat) (l : load) :
  ds_boats ds !! parseInt (boat_id req) = Some b ->
  ds_loads ds !! parseInt (load_id req) = Some l ->
  exists r ds',
    BoatController.load_boat req ds = Returned (r, ds')
    /\ (status r = 403 <->
        l_current_boat l ≠ JNull /\ l_current_boat l = JStr (boat_id req))
    /\ (status r ≠ 403 -> status r = 204)
    /\ (forall other, l_current_boat l = JStr other ->
                      other ≠ boat_id req -> status r = 204).
Proof.
  intros Hb Hl. unfold BoatController.load_boat, BoatModel.get_boat,
    LoadModel.get_load. simpl. rewrite Hb, Hl.
  destruct (decide (l_current_boat l = JStr (boat_id req))) as [Heq|Hne].
  - assert (Hnull : l_current_boat l ≠ JNull) by (rewrite Heq; discriminate).
    rewrite (proj2 (strict_eq_false _ _) Hnull), (proj2 (strict_eq_true _ _) Heq).
    simpl. eexists _, _. split; [reflexivity|]. simpl.
    repeat split; try done.
    intros other Hother Hdiff. congruence.
  - rewrite (proj2 (strict_eq_false _ _) Hne), andb_false_r.
    eexists _, _. split; [reflexivity|]. simpl.
    repeat split; try done.
    intros [_ Heq]. contradiction.
Qed.
End Assign.

(** ** Unassign *)

Section Unassign.
Context `{Runtime}.

Lemma unload_boat_success req ds :
  assigned_here req ds ->
  BoatController.unload_boat req ds
  = Returned (finish 204, BoatModel.unload_boat (boat_id req) (load_id req) ds).
Proof.
  intros (b & l & Hb & Hl & Hc).
  unfold BoatController.unload_boat, BoatModel.get_boat, LoadModel.get_load.
  simpl. rewrite Hb, Hl.
  by rewrite (proj2 (strict_eq_true _ _) Hc).
Qed.

Lemma unload_boat_refused req ds :
  ¬ assigned_here req ds ->
  BoatController.unload_boat req ds = Returned (error 404 not_at_boat, ds).
Proof.
  intros Hno.
  unfold BoatController.unload_boat, BoatModel.get_boat, LoadModel.get_load.
  simpl.
  destruct (ds_boats ds !! parseInt (boat_id req)) as [b|] eqn:Hb; [|done].
  destruct (ds_loads ds !! parseInt (load_id req)) as [l|] eqn:Hl; [|done].
  destruct (strict_eq (l_current_boat l) (JStr (boat_id req))) eqn:Hc; [|done].
  exfalso. apply Hno. exists b, l. by rewrite strict_eq_true in Hc.
Qed.

Lemma unload_boat_clears req ds :
  assigned_here req ds ->
  ¬ assigned_here req (BoatModel.unload_boat (boat_id req) (load_id req) ds).
Proof.
  intros (b & l & Hb & Hl & Hc) (b' & l' & Hb' & Hl' & Hc').
  pose proof (remove_load_from_boat_cleared _ _ _ Hl) as Hnull.
  rewrite unload_boat_loads in Hl'. rewrite Hl' in Hnull.
  simpl in Hnull. congruence.
Qed.

(** C4.  Unassign is answered 204 exactly when the boat is stored and
    the load is stored with [current_boat] equal to the boat id of
    the request; it is answered 404, and changes nothing, in every
    other state.  On success the load's [current_boat] is null and
    the boat's [loads] is the old list without the entries whose id
    is the load id.  A second unassign right after the first is
    answered 404. *)
Theorem unload_boat_requires_assignment (req : request) (ds : datastore) :
  exists r ds',
    BoatController.unload_boat req ds = Returned (r, ds')
    /\ (status r = 204 <-> assigned_here req ds)
    /\ (status r ≠ 204 -> status r = 404 /\ ds' = ds)
    /\ (status r = 204 ->
        l_current_boat <$> ds_loads ds' !! parseInt (load_id req) = Some JNull
        /\ exists b,
             ds_boats ds !! parseInt (boat_id req) = Some b
             /\ b_loads <$> ds_boats ds' !! parseInt (boat_id req)
                = Some (List.filter
                          (fun load => negb (String.eqb (ref_id load) (load_id req)))
                          (b_loads b)))
    /\ exists r2 ds2,
         BoatController.unload_boat req ds' = Returned (r2, ds2)
         /\ status r2 = 404.
Proof.
  assert (Hdec : assigned_here req ds \/ ¬ assigned_here req ds).
  { unfold assigned_here.
    destruct (ds_boats ds !! parseInt (boat_id req)) as [b|];
      [|right; intros (? & ? & ? & _); done].
    destruct (ds_loads ds !! parseInt (load_id req)) as [l|];
      [|right; intros (? & ? & _ & ? & _); done].
    destruct (decide (l_current_boat l = JStr (boat_id req))) as [Hc|Hc].
    - left. eauto.
    - right. intros (? & l' & _ & Hl' & Hc'). congruence. }
  destruct Hdec as [Hyes|Hno].
  - eexists _, _. split; [apply (unload_boat_success _ _ Hyes)|]. simpl.
    split; [done|]. split; [done|]. split.
    + intros _. destruct Hyes as (b & l & Hb & Hl & Hc). split.
      * rewrite unload_boat_loads.
        apply (remove_load_from_boat_cleared _ _ _ Hl).
      * exists b. split; [done|]. by apply unload_boat_filtered.
    + eexists _, _.
      split; [apply unload_boat_refused; by apply unload_boat_clears|].
      reflexivity.
  - eexists _, _. split; [apply (unload_boat_refused _ _ Hno)|]. simpl.
    split; [split; [discriminate | done]|].
    split; [done|]. split; [discriminate|].
    eexists _, _. split; [apply (unload_boat_refused _ _ Hno)|]. done.
Qed.
End Unassign.

(** ** Collection listings *)

Section Listing.
Context `{Runtime} `{QueryEngine}.

(** C7.  The envelope of a loads listing, and of a boats listing
    (which is sent unless the request does not accept JSON), has
    [count] 5, whatever limit and offset are asked for and whatever
    the query returns. *)
Theorem listing_count_is_five (loc : locals) (req : request) (ds : datastore) :
  (exists r, LoadController.get_all_loads req ds = Returned (r, ds)
             /\ status r = 200 /\ page_count r = Some 5)
  /\ (exists r, BoatController.get_all_boats loc req ds = Returned (r, ds)
                /\ page_count r = if accepts_json req then Some 5 else None).
Proof.
  split.
  - eexists. split; [reflexivity|]. split; reflexivity.
  - unfold BoatController.get_all_boats.
    destruct (accepts_json req); simpl.
    + destruct (isValid loc); eexists; (split; [reflexivity|]); reflexivity.
    + eexists. split; reflexivity.
Qed.

Lemma string_app_assoc (a b c : string) : (a +:+ b) +:+ c = a +:+ (b +:+ c).
Proof.
  induction a as [|x a IH]; [reflexivity|].
  change (String x ((a +:+ b) +:+ c) = String x (a +:+ (b +:+ c))).
  by rewrite IH.
Qed.

Lemma next_link_split req : next_link req = next_base req +:+ next_offset req.
Proof.
  unfold next_link, next_base, next_offset.
  by rewrite !string_app_assoc.
Qed.

(** The [next] link of a listing ends in the result of [+] on the two
    query values as received.  Both absent:
    the text is NaN.  One absent and the other a string: the string
    joined to the text undefined, in the order limit, offset.  Both
    strings: their concatenation. *)
Theorem next_link_offset (loc : locals) (req : request) (ds : datastore) :
  (exists r, LoadController.get_all_loads req ds = Returned (r, ds)
             /\ page_next r = Some (next_base req +:+ next_offset req))
  /\ (accepts_json req = true ->
      exists r, BoatController.get_all_boats loc req ds = Returned (r, ds)
                /\ page_next r = Some (next_base req +:+ next_offset req))
  /\ (query_limit req = QAbsent -> query_offset req = QAbsent ->
      next_offset req = "NaN")
  /\ (forall s, query_limit req = QStr s -> query_offset req = QAbsent ->
                next_offset req = s +:+ "undefined")
  /\ (forall s, query_limit req = QAbsent -> query_offset req = QStr s ->
                next_offset req = "undefined" +:+ s)
  /\ (forall s t, query_limit req = QStr s -> query_offset req = QStr t ->
                  next_offset req = s +:+ t).
Proof.
  split; [|split; [|repeat split]].
  - eexists. split; [reflexivity|]. simpl. by rewrite next_link_split.
  - intros Hacc. unfold BoatController.get_all_boats. rewrite Hacc. simpl.
    destruct (isValid loc); eexists; (split; [reflexivity|]); simpl;
      by rewrite next_link_split.
  - intros Hl Ho. unfold next_offset. by rewrite Hl, Ho.
  - intros s Hl Ho. unfold next_offset. by rewrite Hl, Ho.
  - intros s Hl Ho. unfold next_offset. by rewrite Hl, Ho.
  - intros s t Hl Ho. unfold next_offset. by rewrite Hl, Ho.
Qed.
End Listing.

(** ** Validation of boat requests *)

Section Validation.
Context `{Runtime}.

Lemma validate_rejects_falsy req :
  is_post_or_put req = true ->
  all_truthy req = false ->
  BoatController.validate_request req = Returned (JBool false).
Proof.
  unfold is_post_or_put, all_truthy, BoatController.validate_request.
  intros -> Hf.
  destruct (truthy (prop req "name")), (truthy (prop req "type")),
    (truthy (prop req "length")), (truthy (prop req "owner")),
    (truthy (prop req "public")); simpl in *; done.
Qed.

Lemma validate_post_put_total req :
  is_post_or_put req = true ->
  exists v, BoatController.validate_request req = Returned (JBool v)
            /\ (v = true -> all_truthy req = true).
Proof.
  intros Hm. destruct (all_truthy req) eqn:Hall.
  - unfold BoatController.validate_request.
    unfold is_post_or_put in Hm. rewrite Hm.
    unfold all_truthy in Hall.
    repeat (apply andb_true_iff in Hall as [Hall ?]).
    replace (negb (truthy (prop req "name")) || negb (truthy (prop req "type"))
             || negb (truthy (prop req "length")) || negb (truthy (prop req "owner"))
             || negb (truthy (prop req "public"))) with false
      by (repeat match goal with E : truthy _ = true |- _ => rewrite E; clear E end;
          reflexivity).
    destruct (prop req "name") as [| |b|n|s]; try discriminate; simpl;
      repeat match goal with |- context [if ?c then _ else _] => destruct c end;
      eauto.
  - exists false. split; [by apply validate_rejects_falsy|discriminate].
Qed.

(** C9, as the code has it.  For a PATCH body that omits [name]:
    without a truthy [id] and with a truthy [type], [length], [owner]
    or [public], the validator throws a TypeError, and the PATCH
    controller, reached with an acceptable JSON request, throws it
    too; with a truthy [id], or with [type], [length], [owner] and
    [public] all falsy, the validator returns false. *)
Theorem patch_without_name_throws (loc : locals) (req : request) (ds : datastore) :
  method req = "PATCH" ->
  body req !! "name" = None ->
  (truthy (prop req "id") = false ->
   some_other_truthy req = true ->
   BoatController.validate_request req = Thrown TypeError
   /\ (accepts_json req = true ->
       content_type req = Some "application/json" ->
       BoatController.patch_boat loc req ds = Thrown TypeError))
  /\ (truthy (prop req "id") = true ->
      BoatController.validate_request req = Returned (JBool false))
  /\ (some_other_truthy req = false ->
      BoatController.validate_request req = Returned (JBool false)).
Proof.
  intros Hm Hname.
  assert (Hn : prop req "name" = JUndefined) by (unfold prop; by rewrite Hname).
  split; [|split].
  - intros Hid Hsome.
    assert (Hv : BoatController.validate_request req = Thrown TypeError).
    { unfold BoatController.validate_request. rewrite Hm, Hid, Hn. simpl.
      unfold some_other_truthy in Hsome.
      destruct (truthy (prop req "type")), (truthy (prop req "length")),
        (truthy (prop req "owner")), (truthy (prop req "public"));
        simpl in *; done. }
    split; [exact Hv|].
    intros Hacc Hct. unfold BoatController.patch_boat, not_json.
    rewrite Hacc, Hct, Hv. reflexivity.
  - intros Hid. unfold BoatController.validate_request.
    rewrite Hm, Hid. reflexivity.
  - intros Hnone. unfold BoatController.validate_request.
    rewrite Hm, Hn. simpl. unfold some_other_truthy in Hnone.
    destruct (truthy (prop req "id")); [reflexivity|].
    destruct (truthy (prop req "type")), (truthy (prop req "length")),
      (truthy (prop req "owner")), (truthy (prop req "public"));
      simpl in *; done.
Qed.
End Validation.

(** ** Creating and replacing boats *)

Section CreateReplace.
Context `{Runtime}.

Lemma post_is_post_or_put req : method req = "POST" -> is_post_or_put req = true.
Proof. unfold is_post_or_put. by intros ->. Qed.

Lemma put_is_post_or_put req : method req = "PUT" -> is_post_or_put req = true.
Proof. unfold is_post_or_put. by intros ->. Qed.

Lemma create_boat_rejects loc req ds :
  is_post_or_put req = true -> all_truthy req = false ->
  exists r, BoatController.create_boat loc req ds = Returned (r, ds)
            /\ turned_away r
            /\ (reaches_validation loc req -> status r = 400).
Proof.
  intros Hm Hf. unfold BoatController.create_boat, turned_away, reaches_validation.
  rewrite (validate_rejects_falsy _ Hm Hf).
  destruct (isValid loc), (accepts_json req), (not_json (content_type req)) eqn:Hct;
    simpl; eexists; (split; [reflexivity|]); simpl; split;
    try tauto; try (intros (? & ? & ?); done).
  intros (_ & _ & Hj). unfold not_json in Hct. rewrite Hj in Hct. done.
Qed.

Lemma put_boat_rejects loc req ds :
  is_post_or_put req = true -> all_truthy req = false ->
  exists r, BoatController.put_boat loc req ds = Returned (r, ds)
            /\ turned_away r
            /\ (accepts_json req = true ->
                content_type req = Some "application/json" -> status r = 400).
Proof.
  intros Hm Hf. unfold BoatController.put_boat, turned_away.
  rewrite (validate_rejects_falsy _ Hm Hf).
  destruct (accepts_json req), (not_json (content_type req)) eqn:Hct;
    simpl; eexists; (split; [reflexivity|]); simpl; split;
    try tauto; try (intros ? ?; done).
  intros _ Hj. unfold not_json in Hct. rewrite Hj in Hct. done.
Qed.

Lemma create_boat_stores loc req ds r ds' :
  is_post_or_put req = true ->
  BoatController.create_boat loc req ds = Returned (r, ds') ->
  status r = 201 ->
  all_truthy req = true
  /\ exists b, ds_boats ds' = <[Int (ds_next ds) := b]> (ds_boats ds)
               /\ b_public b = prop req "public".
Proof.
  intros Hm Hrun Hst. unfold BoatController.create_boat in Hrun.
  destruct (validate_post_put_total _ Hm) as (v & Hv & Hall).
  rewrite Hv in Hrun.
  destruct (isValid loc), (accepts_json req), (not_json (content_type req)), v;
    simpl in Hrun; inversion Hrun; subst; simpl in Hst; try discriminate.
  split; [by apply Hall|]. eexists. split; reflexivity.
Qed.

Lemma put_boat_stores loc req ds r ds' :
  is_post_or_put req = true ->
  BoatController.put_boat loc req ds = Returned (r, ds') ->
  status r = 303 ->
  all_truthy req = true
  /\ exists b, ds_boats ds' !! parseInt (boat_id req) = Some b
               /\ b_public b = prop req "public".
Proof.
  intros Hm Hrun Hst. unfold BoatController.put_boat in Hrun.
  destruct (validate_post_put_total _ Hm) as (v & Hv & Hall).
  rewrite Hv in Hrun. unfold BoatModel.get_boat in Hrun. simpl in Hrun.
  destruct (accepts_json req), (not_json (content_type req)), v;
    simpl in Hrun; try (inversion Hrun; subst; simpl in Hst; discriminate).
  destruct (ds_boats ds !! parseInt (boat_id req)) as [d|];
    [|inversion Hrun; subst; simpl in Hst; discriminate].
  destruct (strict_eq (b_owner d) (userid loc)); simpl in Hrun;
    inversion Hrun; subst; simpl in Hst; try discriminate.
  split; [by apply Hall|]. eexists. split; [apply lookup_insert_eq|reflexivity].
Qed.

Lemma all_truthy_public req : all_truthy req = true -> truthy (prop req "public") = true.
Proof. unfold all_truthy. intros Hall. by apply andb_true_iff in Hall as [_ ?]. Qed.

(** C10.  A POST or PUT body in which a required field is falsy
    ([public] false, [length] 0, a field missing) fails validation:
    the request is turned away, with 400 once it is at validation,
    and the store is left as it was.  So a boat stored by create
    (201) or replace (303) has a truthy [public]. *)
Theorem falsy_field_never_stored (loc : locals) (req : request) (ds : datastore) :
  (is_post_or_put req = true -> all_truthy req = false ->
   BoatController.validate_request req = Returned (JBool false))
  /\ (method req = "POST" -> all_truthy req = false ->
      exists r, BoatController.create_boat loc req ds = Returned (r, ds)
                /\ turned_away r
                /\ (reaches_validation loc req -> status r = 400))
  /\ (method req = "PUT" -> all_truthy req = false ->
      exists r, BoatController.put_boat loc req ds = Returned (r, ds)
                /\ turned_away r
                /\ (accepts_json req = true ->
                    content_type req = Some "application/json" ->
                    status r = 400))
  /\ (forall r ds',
        method req = "POST" ->
        BoatController.create_boat loc req ds = Returned (r, ds') ->
        status r = 201 ->
        exists b, ds_boats ds' = <[Int (ds_next ds) := b]> (ds_boats ds)
                  /\ truthy (b_public b) = true)
  /\ (forall r ds',
        method req = "PUT" ->
        BoatController.put_boat loc req ds = Returned (r, ds') ->
        status r = 303 ->
        exists b, ds_boats ds' !! parseInt (boat_id req) = Some b
                  /\ truthy (b_public b) = true).
Proof.
  repeat split.
  - apply validate_rejects_falsy.
  - intros Hm. apply create_boat_rejects. by apply post_is_post_or_put.
  - intros Hm. apply put_boat_rejects. by apply put_is_post_or_put.
  - intros r ds' Hm Hrun Hst.
    destruct (create_boat_stores _ _ _ _ _ (post_is_post_or_put _ Hm) Hrun Hst)
      as (Hall & b & Hb & Hp).
    exists b. split; [done|]. rewrite Hp. by apply all_truthy_public.
  - intros r ds' Hm Hrun Hst.
    destruct (put_boat_stores _ _ _ _ _ (put_is_post_or_put _ Hm) Hrun Hst)
      as (Hall & b & Hb & Hp).
    exists b. split; [done|]. rewrite Hp. by apply all_truthy_public.
Qed.

(** Create never answers 403: the model saves the boat without
    looking at the names in the store. *)
Lemma create_boat_never_conflicts loc req ds r ds' :
  BoatController.create_boat loc req ds = Returned (r, ds') -> status r ≠ 403.
Proof.
  unfold BoatController.create_boat. intros Hrun.
  destruct (isValid loc), (accepts_json req), (not_json (content_type req));
    simpl in Hrun; try (inversion Hrun; subst; simpl; lia).
  destruct (BoatController.validate_request req) as [v|e]; simpl in Hrun;
    [|discriminate].
  destruct (truthy v); simpl in Hrun; inversion Hrun; subst; simpl; lia.
Qed.
End CreateReplace.

(** ** Assign, delete and replace on the store *)

Section Relationship.
Context `{Runtime}.

(** Assign from the unassigned state: both sides are written. *)
Lemma load_boat_from_unassigned req ds b l :
  ds_boats ds !! parseInt (boat_id req) = Some b ->
  ds_loads ds !! parseInt (load_id req) = Some l ->
  l_current_boat l = JNull ->
  exists ds',
    BoatController.load_boat req ds = Returned (finish 204, ds')
    /\ l_current_boat <$> ds_loads ds' !! parseInt (load_id req)
       = Some (JStr (boat_id req))
    /\ b_loads <$> ds_boats ds' !! parseInt (boat_id req)
       = Some (b_loads b ++ [load_entry req])%list.
Proof.
  intros Hb Hl Hc.
  unfold BoatController.load_boat, BoatModel.get_boat, LoadModel.get_load.
  simpl. rewrite Hb, Hl, Hc. simpl. eexists. split; [reflexivity|].
  unfold BoatModel.load_boat. rewrite add_load_to_boat_boats, Hb.
  unfold LoadModel.add_load_to_boat. rewrite Hl, Hc. simpl.
  by rewrite !lookup_insert_eq.
Qed.

(** Assign of a load that is on another boat: the controller lets it
    through, the load keeps its [current_boat], and the new boat
    lists the load all the same. *)
Lemma load_boat_from_elsewhere req ds b l other :
  ds_boats ds !! parseInt (boat_id req) = Some b ->
  ds_loads ds !! parseInt (load_id req) = Some l ->
  l_current_boat l = JStr other ->
  other ≠ boat_id req -> other ≠ "" ->
  exists ds',
    BoatController.load_boat req ds = Returned (finish 204, ds')
    /\ ds_loads ds' = ds_loads ds
    /\ b_loads <$> ds_boats ds' !! parseInt (boat_id req)
       = Some (b_loads b ++ [load_entry req])%list.
Proof.
  intros Hb Hl Hc Hdiff Hne.
  assert (Hsame : strict_eq (JStr other) (JStr (boat_id req)) = false)
    by (apply strict_eq_false; congruence).
  assert (Htruthy : truthy (JStr other) = true).
  { simpl. apply negb_true_iff. by apply String.eqb_neq. }
  unfold BoatController.load_boat, BoatModel.get_boat, LoadModel.get_load.
  simpl. rewrite Hb, Hl, Hc, Hsame, andb_false_r. eexists.
  split; [reflexivity|].
  unfold BoatModel.load_boat. rewrite add_load_to_boat_boats, Hb.
  unfold LoadModel.add_load_to_boat. rewrite Hl, Hc, Htruthy. simpl.
  split; [reflexivity|]. by rewrite lookup_insert_eq.
Qed.

Lemma remove_all_other id (refs : list load_ref) ds k :
  k ≠ parseInt id ->
  ds_loads (fold_left (fun s (_ : load_ref) => LoadModel.remove_load_from_boat id s)
                      refs ds) !! k
  = ds_loads ds !! k.
Proof.
  intros Hk. revert ds.
  induction refs as [|ref refs IH]; intros ds; simpl; [reflexivity|].
  rewrite IH. by apply remove_load_from_boat_other.
Qed.

(** Deleting a boat touches no load but the one whose id is the
    boat's id. *)
Lemma delete_boat_loads_other id ds k :
  k ≠ parseInt id ->
  ds_loads (BoatModel.delete_boat id ds) !! k = ds_loads ds !! k.
Proof.
  intros Hk. unfold BoatModel.delete_boat.
  destruct (ds_boats ds !! parseInt id) as [b|]; [|reflexivity].
  destruct (0 <? Z.of_nat (List.length (b_loads b))); [|reflexivity].
  by rewrite remove_all_other.
Qed.

(** Replacing a stored load with a valid body throws. *)
Lemma put_load_throws req ds l :
  accepts_json req = true ->
  content_type req = Some "application/json" ->
  truthy (LoadController.validate_request req) = true ->
  ds_loads ds !! parseInt (load_id req) = Some l ->
  LoadController.put_load req ds = Thrown ReferenceError.
Proof.
  intros Hacc Hct Hv Hl.
  unfold LoadController.put_load, LoadModel.get_load, not_json.
  rewrite Hacc, Hct, Hv. simpl. by rewrite Hl.
Qed.

(** No request to replace a load is answered 303. *)
Lemma put_load_never_succeeds req ds r ds' :
  LoadController.put_load req ds = Returned (r, ds') -> status r ≠ 303.
Proof.
  unfold LoadController.put_load, LoadModel.get_load. simpl. intros Hrun.
  destruct (accepts_json req), (not_json (content_type req)),
    (truthy (LoadController.validate_request req));
    simpl in Hrun; try (inversion Hrun; subst; simpl; lia).
  destruct (ds_loads ds !! parseInt (load_id req));
    simpl in Hrun; [discriminate|inversion Hrun; subst; simpl; lia].
Qed.
End Relationship.

(** ** Scenarios

    The requests of the harbour, evaluated with the decimal runtime. *)

Section Scenarios.
#[local] Existing Instance Node.runtime.
#[local] Existing Instance Node.engine.

(** C1.  Load 3 is on boat 2.  Assigning it to boat 1 is answered
    204; afterwards boat 1 lists load 3 while the load's
    [current_boat] is still boat 2, and boat 2 lists it too. *)
Theorem assign_from_other_boat_breaks_invariant :
  l_current_boat <$> ds_loads harbour !! Int 3 = Some (JStr "2")
  /\ exists ds',
       BoatController.load_boat assign_3_to_1 harbour = Returned (finish 204, ds')
       /\ b_loads <$> ds_boats ds' !! Int 1 = Some [ref3]
       /\ l_current_boat <$> ds_loads ds' !! Int 3 = Some (JStr "2")
       /\ b_loads <$> ds_boats ds' !! Int 2 = Some [ref3].
Proof.
  split; [vm_compute; reflexivity|].
  eexists. split; [vm_compute; reflexivity|].
  repeat split; vm_compute; reflexivity.
Qed.

(** C2.  Boat 2 lists load 3.  Deleting boat 2 is answered 204 and
    removes the boat, but load 3 keeps [current_boat] 2; the answer
    to GET /loads/3 afterwards carries no [current_boat] at all. *)
Theorem delete_boat_leaves_back_reference :
  b_loads <$> ds_boats harbour !! Int 2 = Some [ref3]
  /\ exists ds',
       BoatController.delete_boat u1 delete_2 harbour = Returned (finish 204, ds')
       /\ ds_boats ds' !! Int 2 = None
       /\ l_current_boat <$> ds_loads ds' !! Int 3 = Some (JStr "2")
       /\ exists r lj,
            LoadController.get_load get_3 ds' = Returned (r, ds')
            /\ status r = 200 /\ sent r = PLoad lj
            /\ lj_current_load lj = JUndefined.
Proof.
  split; [vm_compute; reflexivity|].
  eexists. split; [vm_compute; reflexivity|].
  split; [vm_compute; reflexivity|].
  split; [vm_compute; reflexivity|].
  eexists _, _. split; [vm_compute; reflexivity|].
  repeat split.
Qed.

(** C5.  Boat 1 is named Orca.  Creating another boat named Orca is
    answered 201 and stores a second boat of that name. *)
Theorem create_boat_accepts_duplicate_name :
  b_name <$> ds_boats harbour !! Int 1 = Some (JStr "Orca")
  /\ prop post_orca "name" = JStr "Orca"
  /\ ds_boats harbour !! Int 5 = None
  /\ exists r ds',
       BoatController.create_boat u1 post_orca harbour = Returned (r, ds')
       /\ status r = 201
       /\ b_name <$> ds_boats ds' !! Int 1 = Some (JStr "Orca")
       /\ b_name <$> ds_boats ds' !! Int 5 = Some (JStr "Orca").
Proof.
  split; [vm_compute; reflexivity|].
  split; [vm_compute; reflexivity|].
  split; [vm_compute; reflexivity|].
  eexists _, _. split; [vm_compute; reflexivity|].
  repeat split; vm_compute; reflexivity.
Qed.

(** C6.  Load 3 is stored and the body is valid, yet replacing the
    load throws a ReferenceError: nothing is stored and no 303 is
    sent. *)
Theorem put_load_valid_body_throws :
  is_Some (ds_loads harbour !! Int 3)
  /\ LoadController.validate_request put_3 = JBool true
  /\ LoadController.put_load put_3 harbour = Thrown ReferenceError.
Proof.
  split; [vm_compute; eauto|].
  split; vm_compute; reflexivity.
Qed.
(** At PUT /boats/2/loads/3, with load 3 on boat 2, the guard fires. *)
Lemma load_boat_conflict_iff_witness :
  ds_boats harbour !! parseInt (boat_id assign_3_to_2) = Some (sloop "Tuna" [ref3])
  /\ ds_loads harbour !! parseInt (load_id assign_3_to_2) = Some (crates (JStr "2"))
  /\ exists r ds',
       BoatController.load_boat assign_3_to_2 harbour = Returned (r, ds')
       /\ status r = 403.
Proof.
  assert (Hb : ds_boats harbour !! parseInt (boat_id assign_3_to_2)
               = Some (sloop "Tuna" [ref3])) by (vm_compute; reflexivity).
  assert (Hl : ds_loads harbour !! parseInt (load_id assign_3_to_2)
               = Some (crates (JStr "2"))) by (vm_compute; reflexivity).
  split; [exact Hb|]. split; [exact Hl|].
  destruct (load_boat_conflict_iff assign_3_to_2 harbour _ _ Hb Hl)
    as (r & ds' & Hrun & Hiff & _).
  exists r, ds'. split; [exact Hrun|].
  apply Hiff. split; [discriminate|reflexivity].
Defined.

(** At DELETE /boats/2/loads/3, with load 3 on boat 2: 204, the load is
    cleared, and the same request again is answered 404. *)
Lemma unload_boat_requires_assignment_witness :
  exists r ds',
    BoatController.unload_boat unassign_3_from_2 harbour = Returned (r, ds')
    /\ status r = 204
    /\ l_current_boat <$> ds_loads ds' !! Int 3 = Some JNull
    /\ exists r2 ds2,
         BoatController.unload_boat unassign_3_from_2 ds' = Returned (r2, ds2)
         /\ status r2 = 404.
Proof.
  destruct (unload_boat_requires_assignment unassign_3_from_2 harbour)
    as (r & ds' & Hrun & Hiff & _ & Hyes & Hsecond).
  assert (Hst : status r = 204).
  { apply Hiff. exists (sloop "Tuna" [ref3]), (crates (JStr "2")).
    repeat split; vm_compute; reflexivity. }
  exists r, ds'. split; [exact Hrun|]. split; [exact Hst|].
  split; [exact (proj1 (Hyes Hst))|exact Hsecond].
Defined.

(** GET /loads?limit=5 on the harbour: two loads are returned, and the
    count is 5. *)
Lemma listing_count_is_five_witness :
  exists r,
    LoadController.get_all_loads list_limit_only harbour = Returned (r, harbour)
    /\ status r = 200 /\ page_count r = Some 5.
Proof. exact (proj1 (listing_count_is_five u1 list_limit_only harbour)). Defined.

(** C8.  GET /loads?limit=5 has no offset: the [next] link ends in
    5undefined, and the text NaN is nowhere in it.  GET
    /boats?limit=5&offset=0 has both parameters: the link ends in 50,
    the two texts joined, where their sum is 5. *)
Theorem next_link_joins_query_texts :
  (query_limit list_limit_only = QStr "5"
   /\ query_offset list_limit_only = QAbsent
   /\ (exists r,
         LoadController.get_all_loads list_limit_only harbour = Returned (r, harbour)
         /\ page_next r = Some "http://h/loads?limit=5/?limit=5&offset=5undefined")
   /\ mentions "NaN" "http://h/loads?limit=5/?limit=5&offset=5undefined" = false)
  /\ (query_limit list_boats = QStr "5"
      /\ query_offset list_boats = QStr "0"
      /\ exists r,
           BoatController.get_all_boats u1 list_boats harbour = Returned (r, harbour)
           /\ page_next r
              = Some "http://h/boats?limit=5&offset=0/?limit=5&offset=50").
Proof.
  split.
  - split; [reflexivity|]. split; [reflexivity|].
    split; [|vm_compute; reflexivity].
    eexists. split; [reflexivity|]. vm_compute. reflexivity.
  - split; [reflexivity|]. split; [reflexivity|].
    eexists. split; [reflexivity|]. vm_compute. reflexivity.
Qed.

(** At GET /loads?limit=5 the limit is a string and the offset is
    absent. *)
Lemma next_link_offset_witness :
  query_limit list_limit_only = QStr "5"
  /\ query_offset list_limit_only = QAbsent
  /\ next_offset list_limit_only = "5" +:+ "undefined".
Proof.
  assert (Hl : query_limit list_limit_only = QStr "5") by reflexivity.
  assert (Ho : query_offset list_limit_only = QAbsent) by reflexivity.
  split; [exact Hl|]. split; [exact Ho|].
  destruct (next_link_offset u1 list_limit_only harbour)
    as (_ & _ & _ & Hone & _).
  exact (Hone "5" Hl Ho).
Defined.

(** C9 fails as stated.  A PATCH body with a type and an id, and one
    with public false, both without a name: the validator returns
    false and does not throw. *)
Lemma patch_without_name_returns_false :
  (body patch_type_id !! "name" = None
   /\ body patch_type_id !! "type" = Some (JStr "Ketch")
   /\ BoatController.validate_request patch_type_id = Returned (JBool false))
  /\ (body patch_public_false !! "name" = None
      /\ body patch_public_false !! "public" = Some (JBool false)
      /\ BoatController.validate_request patch_public_false = Returned (JBool false)).
Proof. repeat split; vm_compute; reflexivity. Qed.

(** PATCH /boats/1 with only a type: validator and controller throw;
    with a type and an id, the validator returns false. *)
Lemma patch_without_name_throws_witness :
  (method patch_type = "PATCH"
   /\ body patch_type !! "name" = None
   /\ truthy (prop patch_type "id") = false
   /\ some_other_truthy patch_type = true
   /\ BoatController.validate_request patch_type = Thrown TypeError
   /\ BoatController.patch_boat u1 patch_type harbour = Thrown TypeError)
  /\ (method patch_type_id = "PATCH"
      /\ body patch_type_id !! "name" = None
      /\ truthy (prop patch_type_id "id") = true
      /\ BoatController.validate_request patch_type_id = Returned (JBool false)).
Proof.
  assert (Hm : method patch_type = "PATCH") by reflexivity.
  assert (Hn : body patch_type !! "name" = None) by (vm_compute; reflexivity).
  assert (Hid : truthy (prop patch_type "id") = false) by (vm_compute; reflexivity).
  assert (Hs : some_other_truthy patch_type = true) by (vm_compute; reflexivity).
  assert (Hm' : method patch_type_id = "PATCH") by reflexivity.
  assert (Hn' : body patch_type_id !! "name" = None) by (vm_compute; reflexivity).
  assert (Hid' : truthy (prop patch_type_id "id") = true) by (vm_compute; reflexivity).
  split.
  - repeat (split; [assumption|]).
    destruct (patch_without_name_throws u1 patch_type harbour Hm Hn)
      as (Hthrows & _).
    destruct (Hthrows Hid Hs) as [Hv Hc].
    split; [exact Hv|]. apply Hc; reflexivity.
  - repeat (split; [assumption|]).
    destruct (patch_without_name_throws u1 patch_type_id harbour Hm' Hn')
      as (_ & Hfalse & _).
    exact (Hfalse Hid').
Defined.

(** At POST /boats with public false: 400, and the harbour is as it
    was. *)
Lemma falsy_field_never_stored_witness :
  method post_private = "POST"
  /\ all_truthy post_private = false
  /\ exists r,
       BoatController.create_boat u1 post_private harbour = Returned (r, harbour)
       /\ status r = 400.
Proof.
  assert (Hm : method post_private = "POST") by reflexivity.
  assert (Hf : all_truthy post_private = false) by (vm_compute; reflexivity).
  split; [exact Hm|]. split; [exact Hf|].
  destruct (falsy_field_never_stored u1 post_private harbour)
    as (_ & Hpost & _).
  destruct (Hpost Hm Hf) as (r & Hrun & _ & H400).
  exists r. split; [exact Hrun|].
  apply H400. repeat split.
Defined.
End Scenarios.

(** * Further properties *)

(** ** What assign and unassign leave alone *)

Section Frames.
Context `{Runtime}.

Lemma model_load_boat_frame boatID loadID req ds :
  (forall k, k ≠ parseInt boatID ->
             ds_boats (BoatModel.load_boat boatID loadID req ds) !! k = ds_boats ds !! k)
  /\ (forall k, k ≠ parseInt loadID ->
                ds_loads (BoatModel.load_boat boatID loadID req ds) !! k = ds_loads ds !! k)
  /\ ds_next (BoatModel.load_boat boatID loadID req ds) = ds_next ds
  /\ (forall b, ds_boats ds !! parseInt boatID = Some b ->
        exists b', ds_boats (BoatModel.load_boat boatID loadID req ds) !! parseInt boatID = Some b'
                   /\ same_boat_but_loads b b')
  /\ (forall l, ds_loads ds !! parseInt loadID = Some l ->
        exists l', ds_loads (BoatModel.load_boat boatID loadID req ds) !! parseInt loadID = Some l'
                   /\ same_load_but_boat l l')
  /\ (ds_boats ds !! parseInt boatID = None ->
      ds_boats (BoatModel.load_boat boatID loadID req ds) !! parseInt boatID = None)
  /\ (ds_loads ds !! parseInt loadID = None ->
      ds_loads (BoatModel.load_boat boatID loadID req ds) !! parseInt loadID = None).
Proof.
  unfold BoatModel.load_boat. rewrite add_load_to_boat_boats.
  unfold LoadModel.add_load_to_boat, same_boat_but_loads, same_load_but_boat.
  destruct (ds_loads ds !! parseInt loadID) as [l|] eqn:Hl;
    [destruct (negb (truthy (l_current_boat l)))|];
    (destruct (ds_boats ds !! parseInt boatID) as [b|] eqn:Hb); simpl;
    repeat split; intros; simplify_map_eq; eauto 10.
Qed.

(** X1.  Whatever assign answers, it changes no boat but the one of
    the request and no load but the one of the request; a boat or load
    of the request that is stored stays stored, changed only in the
    boat's [loads] and the load's [current_boat], and one that is not
    stored is not created. *)
Theorem load_boat_frame (req : request) (ds : datastore) r ds' :
  BoatController.load_boat req ds = Returned (r, ds') ->
  (forall k, k ≠ parseInt (boat_id req) -> ds_boats ds' !! k = ds_boats ds !! k)
  /\ (forall k, k ≠ parseInt (load_id req) -> ds_loads ds' !! k = ds_loads ds !! k)
  /\ ds_next ds' = ds_next ds
  /\ (forall b, ds_boats ds !! parseInt (boat_id req) = Some b ->
        exists b', ds_boats ds' !! parseInt (boat_id req) = Some b'
                   /\ same_boat_but_loads b b')
  /\ (forall l, ds_loads ds !! parseInt (load_id req) = Some l ->
        exists l', ds_loads ds' !! parseInt (load_id req) = Some l'
                   /\ same_load_but_boat l l')
  /\ (ds_boats ds !! parseInt (boat_id req) = None ->
      ds_boats ds' !! parseInt (boat_id req) = None)
  /\ (ds_loads ds !! parseInt (load_id req) = None ->
      ds_loads ds' !! parseInt (load_id req) = None).
Proof.
  intros Hrun.
  assert (Hcases : ds' = ds
                   \/ ds' = BoatModel.load_boat (boat_id req) (load_id req) req ds).
  { unfold BoatController.load_boat, BoatModel.get_boat, LoadModel.get_load in Hrun.
    simpl in Hrun.
    destruct (ds_boats ds !! parseInt (boat_id req)); [|left; congruence].
    destruct (ds_loads ds !! parseInt (load_id req)) as [l|]; [|left; congruence].
    destruct (negb (strict_eq (l_current_boat l) JNull)
              && strict_eq (l_current_boat l) (JStr (boat_id req)));
      [left|right]; congruence. }
  destruct Hcases as [->| ->]; [|apply model_load_boat_frame].
  unfold same_boat_but_loads, same_load_but_boat. repeat split; eauto 10.
Qed.

Lemma model_unload_boat_frame boatID loadID ds :
  (forall k, k ≠ parseInt boatID ->
             ds_boats (BoatModel.unload_boat boatID loadID ds) !! k = ds_boats ds !! k)
  /\ (forall k, k ≠ parseInt loadID ->
                ds_loads (BoatModel.unload_boat boatID loadID ds) !! k = ds_loads ds !! k)
  /\ ds_next (BoatModel.unload_boat boatID loadID ds) = ds_next ds
  /\ (forall b, ds_boats ds !! parseInt boatID = Some b ->
        exists b', ds_boats (BoatModel.unload_boat boatID loadID ds) !! parseInt boatID = Some b'
                   /\ same_boat_but_loads b b')
  /\ (forall l, ds_loads ds !! parseInt loadID = Some l ->
        exists l', ds_loads (BoatModel.unload_boat boatID loadID ds) !! parseInt loadID = Some l'
                   /\ same_load_but_boat l l')
  /\ (ds_boats ds !! parseInt boatID = None ->
      ds_boats (BoatModel.unload_boat boatID loadID ds) !! parseInt boatID = None)
  /\ (ds_loads ds !! parseInt loadID = None ->
      ds_loads (BoatModel.unload_boat boatID loadID ds) !! parseInt loadID = None).
Proof.
  unfold BoatModel.unload_boat. rewrite remove_load_from_boat_boats.
  unfold LoadModel.remove_load_from_boat, same_boat_but_loads, same_load_but_boat.
  destruct (ds_loads ds !! parseInt loadID) as [l|] eqn:Hl;
    (destruct (ds_boats ds !! parseInt boatID) as [b|] eqn:Hb); simpl;
    repeat split; intros; simplify_map_eq; eauto 10.
Qed.

(** X2.  Whatever unassign answers, it changes no boat but the one of
    the request and no load but the one of the request; a boat or load
    of the request that is stored stays stored, changed only in the
    boat's [loads] and the load's [current_boat], and one that is not
    stored is not created. *)
Theorem unload_boat_frame (req : request) (ds : datastore) r ds' :
  BoatController.unload_boat req ds = Returned (r, ds') ->
  (forall k, k ≠ parseInt (boat_id req) -> ds_boats ds' !! k = ds_boats ds !! k)
  /\ (forall k, k ≠ parseInt (load_id req) -> ds_loads ds' !! k = ds_loads ds !! k)
  /\ ds_next ds' = ds_next ds
  /\ (forall b, ds_boats ds !! parseInt (boat_id req) = Some b ->
        exists b', ds_boats ds' !! parseInt (boat_id req) = Some b'
                   /\ same_boat_but_loads b b')
  /\ (forall l, ds_loads ds !! parseInt (load_id req) = Some l ->
        exists l', ds_loads ds' !! parseInt (load_id req) = Some l'
                   /\ same_load_but_boat l l')
  /\ (ds_boats ds !! parseInt (boat_id req) = None ->
      ds_boats ds' !! parseInt (boat_id req) = None)
  /\ (ds_loads ds !! parseInt (load_id req) = None ->
      ds_loads ds' !! parseInt (load_id req) = None).
Proof.
  intros Hrun.
  assert (Hcases : ds' = ds
                   \/ ds' = BoatModel.unload_boat (boat_id req) (load_id req) ds).
  { unfold BoatController.unload_boat, BoatModel.get_boat, LoadModel.get_load in Hrun.
    simpl in Hrun.
    destruct (ds_boats ds !! parseInt (boat_id req)); [|left; congruence].
    destruct (ds_loads ds !! parseInt (load_id req)) as [l|]; [|left; congruence].
    destruct (negb (strict_eq (l_current_boat l) (JStr (boat_id req))));
      [left|right]; congruence. }
  destruct Hcases as [->| ->]; [|apply model_unload_boat_frame].
  unfold same_boat_but_loads, same_load_but_boat. repeat split; eauto 10.
Qed.
End Frames.

(** ** Assign followed by unassign *)

Section RoundTrip.
Context `{Runtime}.

Lemma filter_keeps_others loadID (refs : list load_ref) :
  Forall (fun ref => ref_id ref ≠ loadID) refs ->
  List.filter (fun load => negb (String.eqb (ref_id load) loadID)) refs = refs.
Proof.
  induction 1 as [|ref refs Hne _ IH]; simpl; [reflexivity|].
  rewrite (proj2 (String.eqb_neq _ _) Hne). simpl. by rewrite IH.
Qed.

Lemma filter_drops_entry loadID (refs : list load_ref) self :
  Forall (fun ref => ref_id ref ≠ loadID) refs ->
  List.filter (fun load => negb (String.eqb (ref_id load) loadID))
              (refs ++ [{| ref_id := loadID; ref_self := self |}])
  = refs.
Proof.
  intros Hno. rewrite List.filter_app, (filter_keeps_others _ _ Hno). simpl.
  rewrite String.eqb_refl. simpl. apply app_nil_r.
Qed.

(** X3.  From a stored boat that does not list the load and a stored
    load whose [current_boat] is null, assign is answered 204, the
    unassign that follows is answered 204, and the store is then
    exactly what it was before the two requests. *)
Theorem assign_then_unassign_restores (req : request) (ds : datastore) b l :
  ds_boats ds !! parseInt (boat_id req) = Some b ->
  ds_loads ds !! parseInt (load_id req) = Some l ->
  l_current_boat l = JNull ->
  lists_no (load_id req) b ->
  exists ds1,
    BoatController.load_boat req ds = Returned (finish 204, ds1)
    /\ BoatController.unload_boat req ds1 = Returned (finish 204, ds).
Proof.
  intros Hb Hl Hnull Hno.
  eexists. split.
  - unfold BoatController.load_boat, BoatModel.get_boat, LoadModel.get_load.
    simpl. rewrite Hb, Hl, Hnull. reflexivity.
  - unfold BoatModel.load_boat. rewrite add_load_to_boat_boats, Hb.
    unfold LoadModel.add_load_to_boat. rewrite Hl, Hnull. simpl.
    unfold BoatController.unload_boat, BoatModel.get_boat, LoadModel.get_load.
    simpl. rewrite !lookup_insert_eq. simpl.
    rewrite (proj2 (strict_eq_true _ _) eq_refl). simpl.
    unfold BoatModel.unload_boat, LoadModel.remove_load_from_boat. simpl.
    repeat (rewrite lookup_insert_eq; simpl).
    rewrite (filter_drops_entry _ _ _ Hno).
    unfold save_boat, save_load. simpl. rewrite !insert_insert_eq.
    destruct ds as [boats loads next], b, l. simpl in *. subst.
    by rewrite !insert_id.
Qed.
End RoundTrip.

(** ** Deleting a boat *)

Section DeleteBoat.
Context `{Runtime}.

Lemma remove_all_boats id (refs : list load_ref) ds :
  ds_boats (fold_left (fun s (_ : load_ref) => LoadModel.remove_load_from_boat id s)
                      refs ds)
  = ds_boats ds.
Proof.
  revert ds. induction refs as [|ref refs IH]; intros ds; simpl; [reflexivity|].
  by rewrite IH, remove_load_from_boat_boats.
Qed.

Lemma remove_all_next id (refs : list load_ref) ds :
  ds_next (fold_left (fun s (_ : load_ref) => LoadModel.remove_load_from_boat id s)
                     refs ds)
  = ds_next ds.
Proof.
  revert ds. induction refs as [|ref refs IH]; intros ds; simpl; [reflexivity|].
  rewrite IH. unfold LoadModel.remove_load_from_boat.
  destruct (ds_loads ds !! parseInt id); reflexivity.
Qed.

Lemma remove_all_clears id (refs : list load_ref) ds l :
  refs ≠ [] ->
  ds_loads ds !! parseInt id = Some l ->
  ds_loads (fold_left (fun s (_ : load_ref) => LoadModel.remove_load_from_boat id s)
                      refs ds) !! parseInt id
  = Some (cleared l).
Proof.
  intros Hne. revert ds l.
  induction refs as [|ref refs IH]; [done|]. intros ds l Hl. simpl.
  assert (Hstep : ds_loads (LoadModel.remove_load_from_boat id ds) !! parseInt id
                  = Some (cleared l)).
  { unfold LoadModel.remove_load_from_boat. rewrite Hl. simpl.
    by rewrite lookup_insert_eq. }
  destruct refs as [|ref' refs]; [exact Hstep|].
  rewrite (IH ltac:(done) _ _ Hstep). reflexivity.
Qed.

(** X4.  The model's delete removes the boat and nothing else of the
    boats, and changes no load whose key is not the boat's own id. *)
Theorem delete_boat_removes_only_the_boat (id : string) (ds : datastore) :
  ds_boats (BoatModel.delete_boat id ds) = delete (parseInt id) (ds_boats ds)
  /\ (forall k, k ≠ parseInt id ->
                ds_loads (BoatModel.delete_boat id ds) !! k = ds_loads ds !! k)
  /\ ds_next (BoatModel.delete_boat id ds) = ds_next ds.
Proof.
  split; [|split].
  - unfold BoatModel.delete_boat.
    destruct (ds_boats ds !! parseInt id) as [b|]; [|reflexivity].
    destruct (0 <? Z.of_nat (List.length (b_loads b))); [|reflexivity].
    by rewrite remove_all_boats.
  - intros k Hk. by apply delete_boat_loads_other.
  - unfold BoatModel.delete_boat.
    destruct (ds_boats ds !! parseInt id) as [b|]; [|reflexivity].
    destruct (0 <? Z.of_nat (List.length (b_loads b))); [|reflexivity].
    by rewrite remove_all_next.
Qed.

(** X5.  When a boat that lists at least one load is deleted, the
    load stored under the boat's own id, whether the boat lists it or
    not, has its [current_boat] set to null. *)
Theorem delete_boat_clears_namesake (id : string) (ds : datastore) b l :
  ds_boats ds !! parseInt id = Some b ->
  b_loads b ≠ [] ->
  ds_loads ds !! parseInt id = Some l ->
  ds_loads (BoatModel.delete_boat id ds) !! parseInt id = Some (cleared l).
Proof.
  intros Hb Hne Hl. unfold BoatModel.delete_boat. rewrite Hb.
  destruct (b_loads b) as [|ref refs] eqn:Hrefs; [done|].
  replace (0 <? Z.of_nat (List.length (ref :: refs))) with true
    by (symmetry; apply Z.ltb_lt; simpl; lia).
  by apply remove_all_clears.
Qed.

(** X6.  DELETE /boats/:id changes the store only when it answers
    204, and it answers 204 exactly when the request has no truthy
    Content-Type, the boat is stored and its owner is strictly equal to
    the [userid] of the locals. *)
Theorem delete_boat_only_by_owner (loc : locals) (req : request) (ds : datastore) :
  exists r ds',
    BoatController.delete_boat loc req ds = Returned (r, ds')
    /\ (status r = 204 <->
        header_truthy (content_type req) = false
        /\ exists d, ds_boats ds !! parseInt (boat_id req) = Some d
                     /\ b_owner d = userid loc)
    /\ (status r ≠ 204 -> ds' = ds)
    /\ (status r = 204 -> ds' = BoatModel.delete_boat (boat_id req) ds).
Proof.
  unfold BoatController.delete_boat, BoatModel.get_boat. simpl.
  destruct (header_truthy (content_type req)).
  { eexists _, _. split; [reflexivity|]. simpl.
    split; [split; [discriminate|intros [? _]; discriminate]|].
    split; [done|discriminate]. }
  destruct (ds_boats ds !! parseInt (boat_id req)) as [d|].
  2:{ eexists _, _. split; [reflexivity|]. simpl.
      split; [split; [discriminate|intros (_ & ? & ? & _); discriminate]|].
      split; [done|discriminate]. }
  destruct (decide (b_owner d = userid loc)) as [Ho|Ho].
  - rewrite (proj2 (strict_eq_true _ _) Ho). simpl.
    eexists _, _. split; [reflexivity|]. simpl.
    split; [split; [eauto|done]|]. split; done.
  - rewrite (proj2 (strict_eq_false _ _) Ho). simpl.
    eexists _, _. split; [reflexivity|]. simpl.
    split; [split; [discriminate|]|].
    + intros (_ & d' & Hd' & Ho'). congruence.
    + split; [done|discriminate].
Qed.
End DeleteBoat.

(** ** Replacing and patching a boat *)

Section ReplacePatch.
Context `{Runtime}.

(** X7.  PUT /boats/:id changes the store only when it answers 303.
    It then stores, under the boat's key, the five fields of the body
    with the owner turned into text and the [loads] the boat had;
    the requester is the stored owner, and Location is the boat's self
    link. *)
Theorem put_boat_keeps_loads (loc : locals) (req : request) (ds : datastore) r ds' :
  BoatController.put_boat loc req ds = Returned (r, ds') ->
  (status r ≠ 303 -> ds' = ds)
  /\ (status r = 303 ->
      exists d,
        ds_boats ds !! parseInt (boat_id req) = Some d
        /\ b_owner d = userid loc
        /\ ds' = save_boat (parseInt (boat_id req)) (replacement req d) ds
        /\ location r = Some (self_link req (boat_id req))).
Proof.
  unfold BoatController.put_boat, BoatModel.get_boat. simpl. intros Hrun.
  destruct (accepts_json req), (not_json (content_type req));
    simpl in Hrun; try (inversion Hrun; subst; simpl; split; [done|discriminate]).
  destruct (BoatController.validate_request req) as [v|e]; simpl in Hrun;
    [|discriminate].
  destruct (truthy v); simpl in Hrun;
    [|inversion Hrun; subst; simpl; split; [done|discriminate]].
  destruct (ds_boats ds !! parseInt (boat_id req)) as [d|] eqn:Hd;
    [|inversion Hrun; subst; simpl; split; [done|discriminate]].
  destruct (strict_eq (b_owner d) (userid loc)) eqn:Ho; simpl in Hrun;
    inversion Hrun; subst; simpl; [|split; [done|discriminate]].
  split; [done|]. intros _. exists d.
  apply strict_eq_true in Ho. repeat split; done.
Qed.



End ReplacePatch.

(** ** What validation lets through *)

Section Validated.
Context `{Runtime}.

Lemma gt_num n k : gt (JNum n) k = (k <? n).
Proof. reflexivity. Qed.

Lemma validate_post_put_verdict (req : request) :
  is_post_or_put req = true ->
  exists v,
    BoatController.validate_request req = Returned (JBool v)
    /\ (v = true ->
        all_truthy req = true
        /\ (forall s, prop req "name" = JStr s ->
                      (String.length s <= 25)%nat /\ pattern_matches s = true)
        /\ (forall s, prop req "type" = JStr s -> pattern_matches s = true)
        /\ (forall n, prop req "length" = JNum n -> n <= 1000)).
Proof.
  intros Hm. destruct (all_truthy req) eqn:Hall.
  2:{ exists false. split; [by apply validate_rejects_falsy|discriminate]. }
  unfold BoatController.validate_request.
  unfold is_post_or_put in Hm. rewrite Hm.
  pose proof Hall as Hall'. unfold all_truthy in Hall.
  repeat (apply andb_true_iff in Hall as [Hall ?]).
  replace (negb (truthy (prop req "name")) || negb (truthy (prop req "type"))
           || negb (truthy (prop req "length")) || negb (truthy (prop req "owner"))
           || negb (truthy (prop req "public"))) with false
    by (repeat match goal with E : truthy _ = true |- _ => rewrite E; clear E end;
        reflexivity).
  assert (Hlen : exists len, get_length (prop req "name") = Returned len
                 /\ forall s, prop req "name" = JStr s ->
                              len = JNum (Z.of_nat (String.length s))).
  { destruct (prop req "name") as [| |b|n|s]; try discriminate; simpl;
      eexists; split; try reflexivity; intros s' Hs'; congruence. }
  destruct Hlen as (len & -> & Hlen). simpl.
  destruct (gt len 25) eqn:Hgt; [exists false; split; [done|discriminate]|].
  destruct (pattern_test (prop req "name")) eqn:Hpn; simpl;
    [|exists false; split; [done|discriminate]].
  destruct (pattern_test (prop req "type")) eqn:Hpt; simpl;
    [|exists false; split; [done|discriminate]].
  destruct (gt (prop req "length") 1000) eqn:Hgl;
    [exists false; split; [done|discriminate]|].
  exists true. split; [done|]. intros _. split; [done|].
  split; [|split].
  - intros s Hs. rewrite (Hlen s Hs), gt_num in Hgt.
    apply Z.ltb_ge in Hgt. rewrite Hs in Hpn. split; [lia|exact Hpn].
  - intros s Hs. by rewrite Hs in Hpt.
  - intros n Hn. rewrite Hn, gt_num in Hgl. by apply Z.ltb_ge in Hgl.
Qed.
(** X9.  When the boat validator returns true for a POST or a PUT,
    the five required fields are truthy, a name that is a string has
    at most 25 characters, all of them letters, digits or spaces, a
    type that is a string is made of such characters, and a length
    that is a number is at most 1000. *)
Theorem validated_boat_fields (req : request) :
  is_post_or_put req = true ->
  BoatController.validate_request req = Returned (JBool true) ->
  all_truthy req = true
  /\ (forall s, prop req "name" = JStr s ->
                (String.length s <= 25)%nat /\ pattern_matches s = true)
  /\ (forall s, prop req "type" = JStr s -> pattern_matches s = true)
  /\ (forall n, prop req "length" = JNum n -> n <= 1000).
Proof.
  intros Hm Hv.
  destruct (validate_post_put_verdict req Hm) as (v & Hv' & Hfields).
  apply Hfields. congruence.
Qed.
End Validated.

(** ** Creating and reading *)

Section CreateRead.
Context `{Runtime}.

(** X10.  A POST /boats that is at validation and passes it is
    answered 201 and stores, under the next id of the store, the five
    fields of the body with an empty [loads]; every other boat and
    every load is as before.  Where [parseInt] reads the new id back,
    the answer shows the new boat, and a GET of that id by its owner
    shows the same fields. *)
Theorem create_boat_round_trip (loc : locals) (req : request) (ds : datastore)
    (loc' : locals) (req' : request) :
  reaches_validation loc req ->
  BoatController.validate_request req = Returned (JBool true) ->
  parseInt (id_text (ds_next ds)) = Int (ds_next ds) ->
  boat_id req' = id_text (ds_next ds) ->
  accepts_json req' = true -> header_truthy (content_type req') = false ->
  isValid loc' = true -> userid loc' = prop req "owner" ->
  exists r ds',
    BoatController.create_boat loc req ds = Returned (r, ds')
    /\ status r = 201
    /\ ds_boats ds' = <[Int (ds_next ds) := launched req]> (ds_boats ds)
    /\ ds_loads ds' = ds_loads ds
    /\ sent r = PBoat (BoatController.format_response
                         (BoatController.Fetched
                            {| data := Some (launched req);
                               id := id_text (ds_next ds) |}) req)
    /\ BoatController.get_boat loc' req' ds'
       = Returned (json 200 (PBoat (BoatController.format_response
                                      (BoatController.Fetched
                                         {| data := Some (launched req);
                                            id := id_text (ds_next ds) |}) req')),
                   ds').
Proof.
  intros (Hv & Hacc & Hct) Hval Hparse Hid Hacc' Hct' Hv' Hown.
  unfold BoatController.create_boat, not_json.
  rewrite Hv, Hacc, Hct, Hval. simpl.
  eexists _, _. split; [reflexivity|]. simpl.
  split; [reflexivity|]. split; [reflexivity|]. split; [reflexivity|].
  unfold BoatModel.get_boat. simpl. rewrite Hparse, lookup_insert_eq.
  split; [reflexivity|].
  unfold BoatController.get_boat, BoatModel.get_boat.
  rewrite Hacc', Hct', Hv', Hid. simpl. rewrite Hparse, lookup_insert_eq.
  unfold BoatController.hidden_from. simpl.
  rewrite (proj2 (strict_eq_true _ _) (eq_sym Hown)). reflexivity.
Qed.

Lemma get_boat_answer (loc : locals) (req : request) (ds : datastore) :
  accepts_json req = true ->
  header_truthy (content_type req) = false ->
  exists r,
    BoatController.get_boat loc req ds = Returned (r, ds)
    /\ (status r = 200 <->
        isValid loc = true
        /\ exists d, ds_boats ds !! parseInt (boat_id req) = Some d
                     /\ visible_to loc d)
    /\ (isValid loc = false -> status r = 401)
    /\ (forall d, isValid loc = true ->
                  ds_boats ds !! parseInt (boat_id req) = Some d ->
                  b_public d = JBool true -> b_owner d ≠ userid loc ->
                  status r = 401).
Proof.
  intros Hacc Hct. unfold BoatController.get_boat, BoatModel.get_boat.
  rewrite Hacc, Hct. simpl.
  destruct (isValid loc).
  2:{ eexists. split; [reflexivity|]. simpl.
      split; [split; [discriminate|intros [? _]; discriminate]|].
      split; [done|discriminate]. }
  destruct (ds_boats ds !! parseInt (boat_id req)) as [d|].
  2:{ eexists. split; [reflexivity|]. simpl.
      split; [split; [discriminate|intros (_ & ? & ? & _); discriminate]|].
      split; [discriminate|intros; discriminate]. }
  unfold BoatController.hidden_from, visible_to.
  destruct (decide (b_owner d = userid loc)) as [Ho|Ho];
    [rewrite (proj2 (strict_eq_true _ _) Ho)
    |rewrite (proj2 (strict_eq_false _ _) Ho)]; simpl.
  - eexists. split; [reflexivity|]. simpl.
    split; [split; [eauto|done]|]. split; [discriminate|].
    intros d' _ [= <-] _ Hne. contradiction.
  - destruct (decide (b_public d = JStr "true")) as [Hp|Hp];
      [rewrite (proj2 (strict_eq_true _ _) Hp)
      |rewrite (proj2 (strict_eq_false _ _) Hp)]; simpl.
    + eexists. split; [reflexivity|]. simpl.
      split; [split; [eauto|done]|]. split; [discriminate|].
      intros d' _ [= <-] Hb _. congruence.
    + eexists. split; [reflexivity|]. simpl.
      split; [split; [discriminate|]|].
      * intros (_ & d' & [= <-] & [?|?]); contradiction.
      * split; [discriminate|]. done.
Qed.

(** X11.  GET /boats/:id, asked with an acceptable request without
    Content-Type, never changes the store and answers 200 exactly
    when the token is valid, the boat is stored, and the requester is
    its owner or its [public] is the string true.  A boat whose
    [public] is the boolean true is hidden (401) from everyone but its
    owner, and without a valid token the answer is 401 whatever the
    boat. *)
Theorem get_boat_visibility (loc : locals) (req : request) (ds : datastore) :
  accepts_json req = true ->
  header_truthy (content_type req) = false ->
  exists r,
    BoatController.get_boat loc req ds = Returned (r, ds)
    /\ (status r = 200 <->
        isValid loc = true
        /\ exists d, ds_boats ds !! parseInt (boat_id req) = Some d
                     /\ visible_to loc d)
    /\ (isValid loc = false -> status r = 401)
    /\ (forall d, isValid loc = true ->
                  ds_boats ds !! parseInt (boat_id req) = Some d ->
                  b_public d = JBool true -> b_owner d ≠ userid loc ->
                  status r = 401).
Proof. apply get_boat_answer. Qed.

(** X12.  GET /boats/:id/loads does not look at the token.  With an
    acceptable request it never changes the store, and it sends the
    stored [loads] of the boat, with status 200, exactly when the boat
    is stored and the requester is its owner or its [public] is the
    string true; a missing boat is 404 and a hidden one 401. *)
Theorem get_boat_loads_visibility (loc : locals) (req : request) (ds : datastore) :
  accepts_json req = true ->
  exists reply,
    BoatController.get_boat_loads loc req ds = Returned (reply, ds)
    /\ match ds_boats ds !! parseInt (boat_id req) with
       | None => exists r, reply = BoatController.Refused r /\ status r = 404
       | Some d =>
           (visible_to loc d -> reply = BoatController.LoadRefs 200 (b_loads d))
           /\ (¬ visible_to loc d ->
               exists r, reply = BoatController.Refused r /\ status r = 401)
       end.
Proof.
  intros Hacc. unfold BoatController.get_boat_loads, BoatModel.get_boat.
  rewrite Hacc. simpl.
  destruct (ds_boats ds !! parseInt (boat_id req)) as [d|].
  2:{ eexists. split; [reflexivity|]. eauto. }
  unfold BoatController.hidden_from, visible_to.
  destruct (decide (b_owner d = userid loc)) as [Ho|Ho];
    [rewrite (proj2 (strict_eq_true _ _) Ho)
    |rewrite (proj2 (strict_eq_false _ _) Ho)]; simpl.
  - eexists. split; [reflexivity|]. split; [done|]. intros Hn. tauto.
  - destruct (decide (b_public d = JStr "true")) as [Hp|Hp];
      [rewrite (proj2 (strict_eq_true _ _) Hp)
      |rewrite (proj2 (strict_eq_false _ _) Hp)]; simpl.
    + eexists. split; [reflexivity|]. split; [done|]. intros Hn. tauto.
    + eexists. split; [reflexivity|]. split; [intros [?|?]; contradiction|].
      intros _. eauto.
Qed.

(** X13.  POST /loads is answered 400, with the store as it was,
    exactly when [weight], [content] or [delivery_date] is falsy;
    otherwise it is answered 201 and stores, under the next id, a load
    with those three fields and a null [current_boat], leaving every
    boat and every other load as before.  No header is looked at. *)
Theorem create_load_stores_unassigned (req : request) (ds : datastore) :
  exists r ds',
    LoadController.create_load req ds = Returned (r, ds')
    /\ (status r = 400 \/ status r = 201)
    /\ (status r = 400 <->
        truthy (prop req "weight") && truthy (prop req "content")
        && truthy (prop req "delivery_date") = false)
    /\ (status r = 400 -> ds' = ds)
    /\ (status r = 201 ->
        ds_loads ds' = <[Int (ds_next ds) := consigned req]> (ds_loads ds)
        /\ ds_boats ds' = ds_boats ds).
Proof.
  unfold LoadController.create_load.
  destruct (truthy (prop req "weight")), (truthy (prop req "content")),
    (truthy (prop req "delivery_date")); simpl;
    eexists _, _; (split; [reflexivity|]); simpl;
    repeat split; try done; try discriminate; try tauto.
Qed.

(** X14.  PATCH /loads/:id never updates a load: whenever it answers,
    the answer is 400, 404, 406 or 415 and the store is as it was; and
    for a stored load and a request that passes validation it throws a
    ReferenceError instead of answering. *)
Theorem patch_load_never_updates (req : request) (ds : datastore) :
  (forall r ds',
     LoadController.patch_load req ds = Returned (r, ds') ->
     ds' = ds /\ turned_away_or_missing r)
  /\ (accepts_json req = true ->
      content_type req = Some "application/json" ->
      truthy (LoadController.validate_request req) = true ->
      is_Some (ds_loads ds !! parseInt (load_id req)) ->
      LoadController.patch_load req ds = Thrown ReferenceError).
Proof.
  unfold LoadController.patch_load, LoadModel.get_load, turned_away_or_missing.
  simpl. split.
  - intros r ds' Hrun.
    destruct (accepts_json req), (not_json (content_type req)),
      (truthy (LoadController.validate_request req));
      simpl in Hrun; try (inversion Hrun; subst; simpl; split; [done|lia]).
    destruct (ds_loads ds !! parseInt (load_id req));
      [discriminate|inversion Hrun; subst; simpl; split; [done|lia]].
  - intros Hacc Hct Hv [l Hl]. unfold not_json.
    rewrite Hacc, Hct, Hv, Hl. reflexivity.
Qed.

Lemma unload_boat_from_same boatID loadID ds :
  BoatModel.unload_boat_from boatID loadID ds ds
  = BoatModel.unload_boat boatID loadID ds.
Proof.
  unfold BoatModel.unload_boat_from, BoatModel.unload_boat.
  rewrite remove_load_from_boat_boats.
  unfold LoadModel.remove_load_from_boat.
  destruct (ds_loads ds !! parseInt loadID); reflexivity.
Qed.

(** X15.  DELETE /loads/:id answers 404, with the store as it was,
    when the load is not stored, and 204 otherwise.  A load whose
    [current_boat] is falsy is removed, and nothing else changes.  A
    load whose [current_boat] is truthy is still stored after the 204,
    with [current_boat] null and its other fields as they were: the
    detached save follows the delete.  The boat its [current_boat]
    names, if it is stored, no longer lists an entry with the load's
    id and keeps its other entries and fields; no other boat and no
    other load changes.  The same request sent again then removes the
    load. *)
Theorem delete_load_unlists (req : request) (ds : datastore) :
  exists r ds',
    LoadController.delete_load req ds = Returned (r, ds')
    /\ match ds_loads ds !! parseInt (load_id req) with
       | None => status r = 404 /\ ds' = ds
       | Some l =>
           status r = 204
           /\ (truthy (l_current_boat l) = false ->
               ds_boats ds' = ds_boats ds
               /\ ds_loads ds' = delete (parseInt (load_id req)) (ds_loads ds))
           /\ (truthy (l_current_boat l) = true ->
               ds_loads ds' = <[parseInt (load_id req) := cleared l]> (ds_loads ds)
               /\ (forall k, k ≠ parseInt (ToString (l_current_boat l)) ->
                              ds_boats ds' !! k = ds_boats ds !! k)
               /\ (ds_boats ds !! parseInt (ToString (l_current_boat l)) = None ->
                   ds_boats ds' = ds_boats ds)
               /\ (forall b,
                     ds_boats ds !! parseInt (ToString (l_current_boat l)) = Some b ->
                     exists b',
                       ds_boats ds' !! parseInt (ToString (l_current_boat l)) = Some b'
                       /\ same_boat_but_loads b b'
                       /\ b_loads b'
                          = List.filter
                              (fun load => negb (String.eqb (ref_id load) (load_id req)))
                              (b_loads b)
                       /\ lists_no (load_id req) b')
               /\ exists r2 ds2,
                    LoadController.delete_load req ds' = Returned (r2, ds2)
                    /\ status r2 = 204
                    /\ ds_loads ds2 = delete (parseInt (load_id req)) (ds_loads ds))
       end.
Proof.
  unfold LoadController.delete_load at 1. unfold LoadModel.get_load. simpl.
  destruct (ds_loads ds !! parseInt (load_id req)) as [l|] eqn:Hl.
  2:{ eexists _, _. split; [reflexivity|]. done. }
  eexists _, _. split; [reflexivity|]. simpl. split; [reflexivity|].
  split.
  - intros Hf. rewrite Hf. done.
  - intros Ht. rewrite Ht.
    unfold BoatModel.unload_boat_from. rewrite Hl.
    assert (Hloads : forall d : datastore,
               ds_loads
                 (match ds_boats ds !! parseInt (ToString (l_current_boat l)) with
                  | Some b =>
                      save_boat (parseInt (ToString (l_current_boat l)))
                        {| b_name := b_name b; b_type := b_type b;
                           b_length := b_length b;
                           b_loads := List.filter
                                        (fun load => negb (String.eqb (ref_id load) (load_id req)))
                                        (b_loads b);
                           b_public := b_public b; b_owner := b_owner b |} d
                  | None => d
                  end) = ds_loads d).
    { intros d. destruct (ds_boats ds !! _); reflexivity. }
    split; [|split; [|split; [|split]]].
    + rewrite Hloads. simpl. by rewrite insert_delete_eq.
    + intros k Hk.
      destruct (ds_boats ds !! parseInt (ToString (l_current_boat l))); simpl;
        [by rewrite lookup_insert_ne|reflexivity].
    + intros Hnone. rewrite Hnone. reflexivity.
    + intros b Hb. rewrite Hb. simpl. rewrite lookup_insert_eq.
      eexists. split; [reflexivity|].
      split; [unfold same_boat_but_loads; simpl; done|].
      split; [reflexivity|]. unfold lists_no. simpl.
      apply Forall_forall. intros ref Hin.
      apply list_elem_of_In, List.filter_In in Hin as [_ Hne].
      apply negb_true_iff in Hne. by apply String.eqb_neq.
    + unfold LoadController.delete_load, LoadModel.get_load. simpl.
      rewrite Hloads. simpl. rewrite lookup_insert_eq. simpl.
      eexists _, _. split; [reflexivity|]. split; [reflexivity|].
      simpl. rewrite Hloads. simpl.
      by rewrite delete_insert_eq, delete_delete_eq.
Qed.
End CreateRead.

(** ** Links *)

Section Links.
Context `{Runtime}.

Lemma split_slash_go_no_slash s cur :
  no_slash s = true -> split_slash_go s cur = [cur +:+ s].
Proof.
  revert cur. induction s as [|c s IH]; intros cur Hs; simpl.
  - f_equal. clear. induction cur as [|x cur IH]; [reflexivity|].
    change (String x cur = String x (cur +:+ "")). by rewrite <- IH.
  - simpl in Hs. apply andb_true_iff in Hs as [Hc Hs].
    apply negb_true_iff in Hc. rewrite Hc, (IH _ Hs).
    by rewrite string_app_assoc.
Qed.

(** X16.  When the request's url is a slash followed by text without
    a slash, that whole text, its query string included, is the
    collection segment that the self links and the [next] link of the
    answer are built on. *)
Theorem collection_keeps_query (req : request) (seg : string) :
  url req = "/" +:+ seg ->
  no_slash seg = true ->
  collection req = seg
  /\ (forall id, self_link req id
                 = protocol req +:+ "://" +:+ opt_text (host req) +:+ "/"
                   +:+ seg +:+ "/" +:+ id)
  /\ next_link req
     = protocol req +:+ "://" +:+ opt_text (host req) +:+ "/"
       +:+ seg +:+ "/?limit=5&offset="
       +:+ sum_text (plus (query_limit req) (query_offset req)).
Proof.
  intros Hurl Hseg.
  assert (Hc : collection req = seg).
  { unfold collection, split_slash. rewrite Hurl.
    change ("/" +:+ seg) with (String "/" seg). simpl.
    by rewrite (split_slash_go_no_slash _ _ Hseg). }
  split; [exact Hc|]. unfold self_link, next_link. rewrite Hc. done.
Qed.
End Links.

(** ** Users *)

Section Users.
Import UserModel.

Lemma some_duplicate_iff_known user_id us :
  (0 <? Z.of_nat (List.length
                    (List.filter (fun user => strict_eq (uuid (snd user)) user_id)
                                 (get_all_users us)))) = true
  <-> known user_id us.
Proof.
  unfold known, get_all_users. split.
  - intros Hpos. apply Z.ltb_lt in Hpos.
    destruct (List.filter _ _) as [|[i u] rest] eqn:Hf; [simpl in Hpos; lia|].
    assert (Hin : In (i, u) (List.filter
                     (fun user => strict_eq (uuid (snd user)) user_id)
                     (map (fun ku => (entity_id (fst ku), snd ku))
                          (map_to_list (us_users us)))))
      by (rewrite Hf; left; reflexivity).
    apply List.filter_In in Hin as [Hin Heq]. simpl in Heq.
    apply List.in_map_iff in Hin as ([k u'] & [= _ <-] & Hin).
    apply list_elem_of_In, elem_of_map_to_list in Hin.
    exists k, u'. split; [done|]. by apply strict_eq_true in Heq.
  - intros (k & u & Hk & Hu). apply Z.ltb_lt.
    assert (Hin : In (entity_id k, u)
                     (List.filter
                        (fun user => strict_eq (uuid (snd user)) user_id)
                        (map (fun ku => (entity_id (fst ku), snd ku))
                             (map_to_list (us_users us))))).
    { apply List.filter_In. split.
      - apply List.in_map_iff. exists (k, u). split; [reflexivity|].
        by apply list_elem_of_In, elem_of_map_to_list.
      - simpl. by apply strict_eq_true. }
    destruct (List.filter _ _); [destruct Hin|simpl; lia].
Qed.

(** X17.  Registering a uuid that a stored user has returns false and
    changes nothing; registering any other uuid stores one new user
    with that uuid under the next id.  Either way the uuid is known
    afterwards, and if no two stored users shared a uuid before, none
    do after. *)
Theorem post_user_keeps_uuids_unique (user_id : jsval) (us : userstore) :
  (known user_id us ->
   post_user user_id us = (None, us))
  /\ (¬ known user_id us ->
      post_user user_id us
      = (Some (Allocated (id_text (us_next us))),
         {| us_users := <[Int (us_next us) := {| uuid := user_id |}]> (us_users us);
            us_next := us_next us + 1 |}))
  /\ known user_id (snd (post_user user_id us))
  /\ (unique_uuids us -> unique_uuids (snd (post_user user_id us))).
Proof.
  pose proof (some_duplicate_iff_known user_id us) as Hiff.
  unfold post_user.
  destruct (0 <? Z.of_nat (List.length _)) eqn:Hdup.
  - assert (Hk : known user_id us) by (by apply Hiff).
    split; [done|]. split; [intros Hn; contradiction|]. split; done.
  - assert (Hk : ¬ known user_id us).
    { intros Hk. apply Hiff in Hk. congruence. }
    split; [intros ?; contradiction|]. split; [done|]. simpl. split.
    + exists (Int (us_next us)), {| uuid := user_id |}.
      split; [apply lookup_insert_eq|reflexivity].
    + intros Huniq k1 k2 u1 u2 H1 H2 Hsame. simpl in *.
      destruct (decide (k1 = Int (us_next us))) as [->|Hk1];
        destruct (decide (k2 = Int (us_next us))) as [->|Hk2]; [done| | |].
      * rewrite lookup_insert_eq in H1. rewrite lookup_insert_ne in H2 by done.
        injection H1 as <-. exfalso. apply Hk. exists k2, u2. split; done.
      * rewrite lookup_insert_eq in H2. rewrite lookup_insert_ne in H1 by done.
        injection H2 as <-. exfalso. apply Hk. exists k1, u1. split; done.
      * rewrite lookup_insert_ne in H1, H2 by done. eauto.
Qed.
End Users.

(** ** The token middleware *)

Section Token.
Import UserController.
Context `{Runtime}.
Variable verifyIdToken : string -> ticket.

Lemma split_space_go_one_word s cur :
  (forall c, In c (list_ascii_of_string s) -> c ≠ " "%char) ->
  split_space_go s cur = [cur +:+ s].
Proof.
  revert cur. induction s as [|c s IH]; intros cur Hs; simpl.
  - f_equal. clear. induction cur as [|x cur IH]; [reflexivity|].
    change (String x cur = String x (cur +:+ "")). by rewrite <- IH.
  - assert (Hc : Ascii.eqb c " " = false).
    { apply Ascii.eqb_neq. apply Hs. simpl. by left. }
    rewrite Hc, IH by (intros c' Hc'; apply Hs; simpl; by right).
    by rewrite string_app_assoc.
Qed.

(** X18.  The middleware lets a request through as unauthenticated
    when it has no Authorization header or a header of one word.  It
    stops a request only with 403, when the verifier fails on the
    second word of the header; and it sets [isValid] only when the
    verifier accepts that word with a defined [sub], which becomes
    [userid]. *)
Theorem authenticateToken_passage (authHeader : option string) :
  (authHeader = None
   \/ (exists h, authHeader = Some h /\ h ≠ ""
                 /\ forall c, In c (list_ascii_of_string h) -> c ≠ " "%char) ->
   authenticateToken verifyIdToken authHeader
   = Next {| isValid := false; userid := JUndefined |})
  /\ (forall r,
        authenticateToken verifyIdToken authHeader = Stopped r ->
        exists t message,
          bearer authHeader = Some t /\ verifyIdToken t = Failed message
          /\ r = error 403 message)
  /\ (forall loc,
        authenticateToken verifyIdToken authHeader = Next loc ->
        isValid loc = true ->
        exists t,
          bearer authHeader = Some t
          /\ verifyIdToken t = Verified (userid loc)
          /\ userid loc ≠ JUndefined).
Proof.
  unfold authenticateToken. split; [|split].
  - intros [->|(h & -> & Hne & Hword)]; [reflexivity|].
    unfold bearer. rewrite (proj2 (String.eqb_neq _ _) Hne).
    unfold split_space. by rewrite (split_space_go_one_word _ _ Hword).
  - intros r Hrun. destruct (bearer authHeader) as [t|]; [|discriminate].
    destruct (verifyIdToken t) as [sub|message] eqn:Hv; [discriminate|].
    injection Hrun as <-. eauto.
  - intros loc Hrun Hvalid. destruct (bearer authHeader) as [t|].
    + destruct (verifyIdToken t) as [sub|message] eqn:Hv; [|discriminate].
      injection Hrun as <-. simpl in *. exists t.
      apply negb_true_iff, strict_eq_false in Hvalid. done.
    + injection Hrun as <-. discriminate.
Qed.

(** X19.  Behind the middleware, GET /boats/:id with an acceptable
    request without Content-Type answers 200 only when the
    Authorization header carries a second word that the verifier
    accepts with a defined [sub], and the boat is stored and is that
    subject's or has [public] the string true; a request without such
    a header is answered 401, also for a boat that anyone may see. *)
Theorem get_boat_route_needs_token (authHeader : option string)
    (req : request) (ds : datastore) :
  accepts_json req = true ->
  header_truthy (content_type req) = false ->
  exists r,
    get_boat_route verifyIdToken authHeader req ds = Returned (r, ds)
    /\ (bearer authHeader = None -> status r = 401)
    /\ (status r = 200 ->
        exists t sub d,
          bearer authHeader = Some t
          /\ verifyIdToken t = Verified sub
          /\ sub ≠ JUndefined
          /\ ds_boats ds !! parseInt (boat_id req) = Some d
          /\ (b_owner d = sub \/ b_public d = JStr "true")).
Proof.
  intros Hacc Hct. unfold get_boat_route, authenticateToken.
  destruct (bearer authHeader) as [t|].
  - destruct (verifyIdToken t) as [sub|message] eqn:Hv.
    + destruct (get_boat_answer
                  {| isValid := negb (strict_eq sub JUndefined); userid := sub |}
                  req ds Hacc Hct) as (r & Hrun & Hiff & _).
      exists r. split; [exact Hrun|]. split; [discriminate|].
      intros H200. apply Hiff in H200 as (Hvalid & d & Hd & Hvis).
      simpl in *. apply negb_true_iff, strict_eq_false in Hvalid.
      exists t, sub, d. done.
    + eexists. split; [reflexivity|]. simpl. split; [discriminate|discriminate].
  - destruct (get_boat_answer {| isValid := false; userid := JUndefined |}
                req ds Hacc Hct) as (r & Hrun & _ & H401 & _).
    exists r. split; [exact Hrun|]. split; [intros _; by apply H401|].
    intros H200. rewrite (H401 eq_refl) in H200. discriminate.
Qed.
End Token.

(** ** More scenarios *)

Section Berths.
#[local] Existing Instance Node.runtime.
#[local] Existing Instance Node.engine.

(** At PUT /boats/1/loads/3: boat 2 and load 4 are as before. *)
Lemma load_boat_frame_witness :
  exists r ds',
    BoatController.load_boat assign_3_to_1 harbour = Returned (r, ds')
    /\ ds_boats ds' !! Int 2 = ds_boats harbour !! Int 2
    /\ ds_loads ds' !! Int 4 = ds_loads harbour !! Int 4.
Proof.
  assert (Hrun : exists r ds',
             BoatController.load_boat assign_3_to_1 harbour = Returned (r, ds'))
    by (eexists _, _; vm_compute; reflexivity).
  destruct Hrun as (r & ds' & Hrun). exists r, ds'. split; [exact Hrun|].
  destruct (load_boat_frame assign_3_to_1 harbour r ds' Hrun)
    as (Hboats & Hloads & _).
  split; [apply Hboats|apply Hloads]; vm_compute; discriminate.
Defined.

(** At DELETE /boats/2/loads/3: boat 1 and load 4 are as before. *)
Lemma unload_boat_frame_witness :
  exists r ds',
    BoatController.unload_boat unassign_3_from_2 harbour = Returned (r, ds')
    /\ ds_boats ds' !! Int 1 = ds_boats harbour !! Int 1
    /\ ds_loads ds' !! Int 4 = ds_loads harbour !! Int 4.
Proof.
  assert (Hrun : exists r ds',
             BoatController.unload_boat unassign_3_from_2 harbour = Returned (r, ds'))
    by (eexists _, _; vm_compute; reflexivity).
  destruct Hrun as (r & ds' & Hrun). exists r, ds'. split; [exact Hrun|].
  destruct (unload_boat_frame unassign_3_from_2 harbour r ds' Hrun)
    as (Hboats & Hloads & _).
  split; [apply Hboats|apply Hloads]; vm_compute; discriminate.
Defined.

(** Load 4 is free and boat 1 lists nothing. *)
Lemma assign_then_unassign_restores_witness :
  exists ds1,
    BoatController.load_boat assign_4_to_1 harbour = Returned (finish 204, ds1)
    /\ BoatController.unload_boat assign_4_to_1 ds1 = Returned (finish 204, harbour).
Proof.
  apply (assign_then_unassign_restores assign_4_to_1 harbour
           (sloop "Orca" []) (crates JNull)).
  - vm_compute; reflexivity.
  - vm_compute; reflexivity.
  - reflexivity.
  - constructor.
Defined.

(** In [twins], deleting boat 2 clears load 2, which is on boat 1. *)
Lemma delete_boat_clears_namesake_witness :
  ds_boats twins !! parseInt "2" = Some (sloop "Tuna" [ref3])
  /\ ds_loads twins !! parseInt "2" = Some (crates (JStr "1"))
  /\ ds_loads (BoatModel.delete_boat "2" twins) !! parseInt "2"
     = Some (cleared (crates (JStr "1"))).
Proof.
  assert (Hb : ds_boats twins !! parseInt "2" = Some (sloop "Tuna" [ref3]))
    by (vm_compute; reflexivity).
  assert (Hl : ds_loads twins !! parseInt "2" = Some (crates (JStr "1")))
    by (vm_compute; reflexivity).
  split; [exact Hb|]. split; [exact Hl|].
  apply (delete_boat_clears_namesake "2" twins _ _ Hb); [discriminate|exact Hl].
Defined.

(** PUT /boats/2 by its owner: load 3 stays on the boat. *)
Lemma put_boat_keeps_loads_witness :
  exists r ds',
    BoatController.put_boat u1 put_boat_2 harbour = Returned (r, ds')
    /\ status r = 303
    /\ ds' = save_boat (parseInt "2") (replacement put_boat_2 (sloop "Tuna" [ref3])) harbour.
Proof.
  assert (Hrun : exists r ds',
             BoatController.put_boat u1 put_boat_2 harbour = Returned (r, ds')
             /\ status r = 303)
    by (eexists _, _; split; vm_compute; reflexivity).
  destruct Hrun as (r & ds' & Hrun & Hst). exists r, ds'.
  split; [exact Hrun|]. split; [exact Hst|].
  destruct (put_boat_keeps_loads u1 put_boat_2 harbour r ds' Hrun) as [_ H303].
  destruct (H303 Hst) as (d & Hd & _ & Hds & _).
  assert (Hd' : Some d = Some (sloop "Tuna" [ref3]))
    by (rewrite <- Hd; vm_compute; reflexivity).
  injection Hd' as <-. exact Hds.
Defined.


(** The body of POST /boats named Orca passes. *)
Lemma validated_boat_fields_witness :
  is_post_or_put post_orca = true
  /\ BoatController.validate_request post_orca = Returned (JBool true)
  /\ forall s, prop post_orca "name" = JStr s -> (String.length s <= 25)%nat.
Proof.
  assert (Hm : is_post_or_put post_orca = true) by reflexivity.
  assert (Hv : BoatController.validate_request post_orca = Returned (JBool true))
    by (vm_compute; reflexivity).
  split; [exact Hm|]. split; [exact Hv|].
  destruct (validated_boat_fields post_orca Hm Hv) as (_ & Hname & _).
  intros s Hs. exact (proj1 (Hname s Hs)).
Defined.

(** POST /boats on the harbour, then GET /boats/5 by u1. *)
Lemma create_boat_round_trip_witness :
  exists r ds',
    BoatController.create_boat u1 post_orca harbour = Returned (r, ds')
    /\ status r = 201
    /\ exists r', BoatController.get_boat u1 get_boat_5 ds' = Returned (r', ds')
                  /\ status r' = 200.
Proof.
  destruct (create_boat_round_trip u1 post_orca harbour u1 get_boat_5)
    as (r & ds' & Hrun & Hst & _ & _ & _ & Hget).
  - repeat split.
  - vm_compute; reflexivity.
  - vm_compute; reflexivity.
  - vm_compute; reflexivity.
  - reflexivity.
  - reflexivity.
  - reflexivity.
  - vm_compute; reflexivity.
  - exists r, ds'. split; [exact Hrun|]. split; [exact Hst|].
    eexists. split; [exact Hget|reflexivity].
Defined.

(** Boat 1 has [public] the boolean true: u2 is answered 401. *)
Lemma get_boat_visibility_witness :
  exists r,
    BoatController.get_boat u2 get_boat_1 harbour = Returned (r, harbour)
    /\ status r = 401.
Proof.
  destruct (get_boat_visibility u2 get_boat_1 harbour eq_refl eq_refl)
    as (r & Hrun & _ & _ & Hbool).
  exists r. split; [exact Hrun|].
  apply (Hbool (sloop "Orca" [])); [reflexivity|vm_compute; reflexivity
                                   |reflexivity|discriminate].
Defined.

(** The owner of boat 2 is sent its one entry. *)
Lemma get_boat_loads_visibility_witness :
  BoatController.get_boat_loads u1 get_loads_of_2 harbour
  = Returned (BoatController.LoadRefs 200 [ref3], harbour).
Proof.
  destruct (get_boat_loads_visibility u1 get_loads_of_2 harbour eq_refl)
    as (reply & Hrun & Hcases).
  assert (Hb : ds_boats harbour !! parseInt (boat_id get_loads_of_2)
               = Some (sloop "Tuna" [ref3])) by (vm_compute; reflexivity).
  rewrite Hb in Hcases. destruct Hcases as [Hvis _].
  rewrite Hrun, (Hvis (or_introl eq_refl)). reflexivity.
Defined.

(** PATCH /loads/3 with a weight throws. *)
Lemma patch_load_never_updates_witness :
  LoadController.patch_load patch_load_3 harbour = Thrown ReferenceError.
Proof.
  apply (proj2 (patch_load_never_updates patch_load_3 harbour)).
  - reflexivity.
  - reflexivity.
  - vm_compute; reflexivity.
  - vm_compute; eauto.
Defined.

(** GET /boats?limit=5&offset=0: the next link repeats the query. *)
Lemma collection_keeps_query_witness :
  url list_boats = "/" +:+ "boats?limit=5&offset=0"
  /\ next_link list_boats
     = "http://h/boats?limit=5&offset=0/?limit=5&offset=50".
Proof.
  assert (Hurl : url list_boats = "/" +:+ "boats?limit=5&offset=0") by reflexivity.
  split; [exact Hurl|].
  destruct (collection_keeps_query list_boats _ Hurl eq_refl) as (_ & _ & Hnext).
  rewrite Hnext. vm_compute. reflexivity.
Defined.

(** u1 is registered, u2 is not. *)
Lemma post_user_keeps_uuids_unique_witness :
  UserModel.post_user (JStr "u1") crew = (None, crew)
  /\ unique_uuids (snd (UserModel.post_user (JStr "u2") crew)).
Proof.
  destruct (post_user_keeps_uuids_unique (JStr "u1") crew) as (Hknown & _).
  destruct (post_user_keeps_uuids_unique (JStr "u2") crew) as (_ & _ & _ & Huniq).
  split.
  - apply Hknown. exists (Int 1), {| UserModel.uuid := JStr "u1" |}.
    split; [vm_compute; reflexivity|reflexivity].
  - apply Huniq. intros k1 k2 u1' u2' H1 H2 _.
    unfold crew in H1, H2. simpl in H1, H2.
    apply lookup_insert_Some in H1 as [[<- _]|[_ H1]]; [|by rewrite lookup_empty in H1].
    apply lookup_insert_Some in H2 as [[<- _]|[_ H2]]; [|by rewrite lookup_empty in H2].
    reflexivity.
Defined.

(** A header of one word is let through; a wrong token is stopped. *)
Lemma authenticateToken_passage_witness :
  UserController.authenticateToken verifier (Some "good")
  = UserController.Next {| isValid := false; userid := JUndefined |}
  /\ exists t message,
       UserController.bearer (Some "Bearer bad") = Some t
       /\ verifier t = UserController.Failed message.
Proof.
  destruct (authenticateToken_passage verifier (Some "good")) as (Hpass & _).
  destruct (authenticateToken_passage verifier (Some "Bearer bad")) as (_ & Hstop & _).
  split.
  - apply Hpass. right. exists "good". split; [reflexivity|].
    split; [discriminate|]. intros c Hc. simpl in Hc.
    repeat (destruct Hc as [<-|Hc]; [discriminate|]). destruct Hc.
  - destruct (Hstop _ eq_refl) as (t & message & Hb & Hv & _). eauto.
Defined.

(** Boat 1 belongs to u1: with the good token 200, with none 401. *)
Lemma get_boat_route_needs_token_witness :
  (exists r, UserController.get_boat_route verifier None get_boat_1 harbour
             = Returned (r, harbour) /\ status r = 401)
  /\ exists r, UserController.get_boat_route verifier (Some "Bearer good")
                 get_boat_1 harbour = Returned (r, harbour)
               /\ status r = 200.
Proof.
  split.
  - destruct (get_boat_route_needs_token verifier None get_boat_1 harbour
                eq_refl eq_refl) as (r & Hrun & H401 & _).
    exists r. split; [exact Hrun|]. by apply H401.
  - eexists. split; vm_compute; reflexivity.
Defined.

(** Load 3 is on boat 2: after DELETE /loads/3 it is still stored,
    with a null [current_boat], and boat 2 lists nothing. *)
Lemma delete_load_unlists_witness :
  exists r ds',
    LoadController.delete_load delete_load_3 harbour = Returned (r, ds')
    /\ status r = 204
    /\ ds_loads ds' !! Int 3 = Some (crates JNull)
    /\ b_loads <$> ds_boats ds' !! Int 2 = Some [].
Proof.
  destruct (delete_load_unlists delete_load_3 harbour)
    as (r & ds' & Hrun & Hcases).
  assert (Hl : ds_loads harbour !! parseInt (load_id delete_load_3)
               = Some (crates (JStr "2"))) by (vm_compute; reflexivity).
  rewrite Hl in Hcases. destruct Hcases as (Hst & _ & Hon).
  destruct (Hon eq_refl) as (Hloads & _ & _ & Hboat & _).
  destruct (Hboat (sloop "Tuna" [ref3]) ltac:(vm_compute; reflexivity))
    as (b' & Hb' & _ & Hrefs & _).
  exists r, ds'. split; [exact Hrun|]. split; [exact Hst|]. split.
  - rewrite Hloads. apply lookup_insert_eq.
  - change (Int 2) with (parseInt (ToString (l_current_boat (crates (JStr "2"))))).
    rewrite Hb'. simpl. rewrite Hrefs. reflexivity.
Defined.
End Berths.
